(** * networking-bgpvpn, OVN service driver: reconciliation worker and
      association controller

    A shallow embedding of

    - [service_drivers/ovn/common/constants.py],
    - [service_drivers/ovn/helper.py]  (class [OvnProviderHelper]),
    - [service_drivers/ovn/ovn.py]     (class [OvnBGPVPNDriver]),

    followed by the properties of the worker loop, of the three request
    handlers and of the precommit checks.

    Python values are a small universe [pyval]; a Python [dict] with string
    keys is a [gmap string pyval]; an operation that may raise returns a
    [result]; code that reads or writes the OVN Northbound database runs in
    the state-and-exception monad [M] over the database. *)

From Stdlib Require Import Ascii.
From stdpp Require Import gmap strings list fin_maps pretty.

Open Scope string_scope.
Open Scope list_scope.

(** ** Python values *)

#[warnings="-register-all"]
Inductive pyval : Type :=
  | PNone
  | PBool (b : bool)
  | PInt (n : Z)
  | PStr (s : string)
  | PList (l : list pyval).

Abbreviation dict := (gmap string pyval).

(** Truth value testing: [None], [False], [0], the empty string and the
    empty list are false, every other value is true. *)
Definition truthy (v : pyval) : bool :=
  match v with
  | PNone => false
  | PBool b => b
  | PInt n => negb (n =? 0)%Z
  | PStr s => negb (String.eqb s EmptyString)
  | PList l => match l with [] => false | _ :: _ => true end
  end.

(** [a == b].  [bool] is a subclass of [int]: [True == 1]. *)
Fixpoint py_eq (a b : pyval) : bool :=
  match a, b with
  | PNone, PNone => true
  | PBool x, PBool y => Bool.eqb x y
  | PBool x, PInt n | PInt n, PBool x => (n =? (if x then 1 else 0))%Z
  | PInt n, PInt m => (n =? m)%Z
  | PStr s, PStr t => String.eqb s t
  | PList l, PList m =>
      (fix go (l m : list pyval) {struct l} : bool :=
         match l, m with
         | [], [] => true
         | x :: l', y :: m' => py_eq x y && go l' m'
         | _, _ => false
         end) l m
  | _, _ => false
  end.

(** [v in l] on a list. *)
Definition py_in (v : pyval) (l : list pyval) : bool :=
  existsb (py_eq v) l.

(** *** [str] and [repr] *)

Definition squote : ascii := ascii_of_nat 39.
Definition dquote : ascii := ascii_of_nat 34.
Definition backslash : ascii := ascii_of_nat 92.

Definition hex_digit (n : nat) : ascii :=
  ascii_of_nat (if Nat.ltb n 10 then 48 + n else 87 + n).

Fixpoint contains_char (c : ascii) (s : string) : bool :=
  match s with
  | EmptyString => false
  | String d s' => Ascii.eqb c d || contains_char c s'
  end.

(** One character of a string literal delimited by [q]. Code points above
    127 are bytes of a UTF-8 sequence here and are kept as they are. *)
Definition repr_char (q c : ascii) : string :=
  let n := nat_of_ascii c in
  if Ascii.eqb c backslash then String backslash (String backslash EmptyString)
  else if Ascii.eqb c q then String backslash (String q EmptyString)
  else if Nat.eqb n 10 then String backslash "n"
  else if Nat.eqb n 13 then String backslash "r"
  else if Nat.eqb n 9 then String backslash "t"
  else if Nat.ltb n 32 || Nat.eqb n 127 then
    String backslash
      (String "x" (String (hex_digit (n / 16)) (String (hex_digit (n mod 16)) EmptyString)))
  else String c EmptyString.

Fixpoint repr_chars (q : ascii) (s : string) : string :=
  match s with
  | EmptyString => EmptyString
  | String c s' => repr_char q c +:+ repr_chars q s'
  end.

(** [repr] of a [str]: single quotes, unless the text has a single quote
    and no double quote. *)
Definition repr_str (s : string) : string :=
  let q := if contains_char squote s && negb (contains_char dquote s)
           then dquote else squote in
  String q (repr_chars q s) +:+ String q EmptyString.

Fixpoint py_repr (v : pyval) : string :=
  match v with
  | PNone => "None"
  | PBool b => if b then "True" else "False"
  | PInt n => pretty n
  | PStr s => repr_str s
  | PList l =>
      "[" +:+
      (fix go (l : list pyval) : string :=
         match l with
         | [] => EmptyString
         | [x] => py_repr x
         | x :: l' => py_repr x +:+ ", " +:+ go l'
         end) l
      +:+ "]"
  end.

(** [str(v)]: the text itself for a [str], [repr] otherwise. *)
Definition py_str (v : pyval) : string :=
  match v with
  | PStr s => s
  | _ => py_repr v
  end.

(** ** Exceptions and results *)

Inductive exn : Type :=
  | KeyError (key : string)
  | AttributeError (attr : string)
  | RowNotFound (table : string) (record : string)
  | BGPVPNRDNotSupported (driver : string)
  | BGPVPNRTNotSupported (driver : string)
  | BGPVPNITNotSupported (driver : string)
  | BGPVPNETNotSupported (driver : string)
  | BGPVPNLocalPrefNotSupported (driver : string)
  | BGPVPNTypeNotSupported (driver : string) (type : pyval)
  | IndexError
  | LookupFailure (reason : string).

Inductive result (A : Type) : Type :=
  | Ok (a : A)
  | Raise (e : exn).
Arguments Ok {A} a.
Arguments Raise {A} e.

(** [d.get(k)] and [d[k]]. *)
Definition dict_get (d : dict) (k : string) : pyval :=
  default PNone (d !! k).

Definition dict_item (d : dict) (k : string) : result pyval :=
  match d !! k with
  | Some v => Ok v
  | None => Raise (KeyError k)
  end.

(** ** constants.py *)

Module constants.

Definition OVN_SUPPORTED_BGPVPN_TYPES : list pyval := [PStr "l3"].

Definition REQ_TYPE_EXIT := "exit".
Definition REQ_TYPE_CREATE_ROUTER_ASSOC := "create_router_assoc".
Definition REQ_TYPE_DELETE_ROUTER_ASSOC := "delete_router_assoc".
Definition REQ_TYPE_ADD_ROUTER_INTERFACE := "add_router_interface".

Definition OVN_GW_PORT_EXT_ID_KEY := "neutron:gw_port_id".
Definition OVN_EVPN_VNI_EXT_ID_KEY := "neutron_bgpvpn:vni".
Definition OVN_EVPN_AS_EXT_ID_KEY := "neutron_bgpvpn:as".

Definition LRP_PREFIX := "lrp-".

End constants.

(** ** The state-and-exception monad over the Northbound database

    A computation reads and writes the database and either returns a value
    or raises; the database it leaves behind is returned in both cases. *)

(** A row of the [Logical_Switch_Port] table, with the columns the driver
    reads and writes. *)
Record Logical_Switch_Port : Type := {
  lsp_uuid : N;
  lsp_name : string;
  lsp_external_ids : gmap string string
}.

Abbreviation nbdb := (list Logical_Switch_Port).

Definition M (A : Type) : Type := nbdb → result A * nbdb.

#[global] Instance M_ret : MRet M := λ A a db, (Ok a, db).

#[global] Instance M_bind : MBind M := λ A B f m db,
  match m db with
  | (Ok a, db') => f a db'
  | (Raise e, db') => (Raise e, db')
  end.

(** A pure step that may raise, run inside [M]. *)
Definition lift {A} (r : result A) : M A := λ db, (r, db).

(** [o[k]] on an object whose key [k] may be missing. *)
Definition item {A} (k : string) (o : option A) : result A :=
  match o with
  | Some a => Ok a
  | None => Raise (KeyError k)
  end.

(** ** The transactional store adapter *)

Inductive command : Type :=
  | DbSet (table : string) (record : N) (col : string)
          (value : gmap string string)
  | DbRemove (table : string) (record : N) (col : string) (key : string).

Definition has_row (record : N) (db : nbdb) : bool :=
  existsb (λ r, (lsp_uuid r =? record)%N) db.

Definition update_row (record : N)
    (f : gmap string string → gmap string string) (db : nbdb) : nbdb :=
  map (λ r, if (lsp_uuid r =? record)%N
            then {| lsp_uuid := lsp_uuid r; lsp_name := lsp_name r;
                    lsp_external_ids := f (lsp_external_ids r) |}
            else r) db.

Definition is_external_ids_of_lsp (table col : string) : bool :=
  String.eqb table "Logical_Switch_Port" && String.eqb col "external_ids".

(** Modelled from the spec: the store adapter ([ovsdb/impl_idl_ovn.py] and
    the client library under it) is not part of the sources at hand.  The
    spec gives its contract: set-field "merges the two annotation keys into
    the existing map rather than replacing it wholesale", remove-field
    "removes a single key, leaving other keys untouched", "removing an absent
    key is not an error", and a stale record handle makes the store reject
    the transaction. *)
Definition run_command (c : command) (db : nbdb) : result nbdb :=
  match c with
  | DbSet table record col value =>
      if is_external_ids_of_lsp table col then
        if has_row record db
        then Ok (update_row record (λ ids, value ∪ ids) db)
        else Raise (RowNotFound table (pretty record))
      else Raise (LookupFailure table)
  | DbRemove table record col key =>
      if is_external_ids_of_lsp table col then
        if has_row record db
        then Ok (update_row record (delete key) db)
        else Raise (RowNotFound table (pretty record))
      else Raise (LookupFailure table)
  end.

Fixpoint run_commands (cs : list command) (db : nbdb) : result nbdb :=
  match cs with
  | [] => Ok db
  | c :: cs' =>
      match run_command c db with
      | Ok db' => run_commands cs' db'
      | Raise e => Raise e
      end
  end.

(** Modelled from the spec: "all such commands for one logical operation are
    submitted as a single atomic transaction", "all-or-nothing; if the store
    rejects the transaction, the entire command's effect is void".  With
    [check_error=True] a rejected transaction raises. *)
Definition transaction (cs : list command) : M unit := λ db,
  match run_commands cs db with
  | Ok db' => (Ok (), db')
  | Raise e => (Raise e, db)
  end.

(** [cmd.execute(check_error=True)]: a transaction of its own. *)
Definition execute (c : command) : M unit := transaction [c].

(** Modelled from the spec: "get port by name", [lsp_get(name).execute(
    check_error=True)]; an unknown name raises. *)
Definition lsp_get (port : pyval) : M Logical_Switch_Port := λ db,
  match port with
  | PStr n =>
      match find (λ r, String.eqb (lsp_name r) n) db with
      | Some r => (Ok r, db)
      | None => (Raise (RowNotFound "Logical_Switch_Port" n), db)
      end
  | _ => (Raise (RowNotFound "Logical_Switch_Port" (py_str port)), db)
  end.

Definition db_set (table : string) (record : N)
    (col_value : string * gmap string string) : command :=
  DbSet table record col_value.1 col_value.2.

Definition db_remove (table : string) (record : N) (col key : string)
    : command :=
  DbRemove table record col key.

(** ** helper.py *)

Module helper.

Inductive context : Type :=
  | Context (user_id tenant_id : string).

(** The [info] dict of a request; a key may be missing. *)
Record request_info : Type := {
  info_context : option context;
  info_router_association : option dict;
  info_bgpvpn : option dict;
  info_port_id : option pyval
}.

(** A request dict: every producer sets ['type']; the exit request has no
    ['info']. *)
Record request : Type := {
  req_type : string;
  req_info : option request_info
}.

(** The filters of [get_ports]. *)
Record port_filters : Type := {
  device_id : list pyval;
  device_owner : list string
}.

(** What became of a dequeued request. *)
Inductive outcome : Type :=
  | Handled                (* the handler returned; [task_done] *)
  | NoHandler              (* no handler for the type; [task_done] *)
  | Logged (e : exn).      (* the handler raised; [LOG.exception] *)

Inductive event : Type :=
  | Processed (r : request) (o : outcome)
  | Exited                 (* [break] on the exit request *)
  | ConnectionStopped.     (* [ovn_nbdb.stop()] *)

(** The helper object once [_post_fork_initialize] has opened the
    connection: the queue, the worker thread, the database behind the
    connection, and the record of what the worker did, oldest first.
    [task_done] only moves the queue's join counter, which nothing reads;
    it is not modelled. *)
Record OvnProviderHelper : Type := {
  _requests : list request;
  _helper_thread_alive : bool;
  ovn_nbdb : nbdb;
  ovn_nbdb_started : bool;
  history : list event
}.

Section Helper.

(** The directory service, [directory.get_plugin().get_ports]. *)
Variable get_ports : context → port_filters → list dict.
(** [neutron_lib.constants.ROUTER_PORT_OWNERS]. *)
Variable ROUTER_PORT_OWNERS : list string.
(** [cfg.CONF.ovn.bgp_as]. *)
Variable bgp_as : pyval.

Definition _execute_commands (commands : list command) : M unit :=
  transaction (foldl (λ txn command, txn ++ [command]) [] commands).

(** The [external_ids] dict literal of both setters. *)
Definition evpn_external_ids (bgpvpn : dict) : gmap string string :=
  <[constants.OVN_EVPN_AS_EXT_ID_KEY := py_str bgp_as]>
    (<[constants.OVN_EVPN_VNI_EXT_ID_KEY := py_str (dict_get bgpvpn "vni")]> ∅).

Definition router_port_filters (router_id : pyval) : port_filters :=
  {| device_id := [router_id]; device_owner := ROUTER_PORT_OWNERS |}.

(** The loop that resolves each port to the uuid of its row. *)
Definition lsp_uuid_of (iface : dict) : M N :=
  id ← lift (dict_item iface "id");
  lsp ← lsp_get id;
  mret (lsp_uuid lsp).

Definition create_router_assoc (info : request_info) : M unit :=
  context ← lift (item "context" (info_context info));
  router_assoc ← lift (item "router_association" (info_router_association info));
  bgpvpn ← lift (item "bgpvpn" (info_bgpvpn info));
  router_id ← lift (dict_item router_assoc "router_id");
  let external_ids := evpn_external_ids bgpvpn in
  let filters := router_port_filters router_id in
  let router_ports := get_ports context filters in
  port_ids ← mapM lsp_uuid_of router_ports;
  let commands :=
    map (λ port_id, db_set "Logical_Switch_Port" port_id
                      ("external_ids", external_ids)) port_ids in
  _execute_commands commands.

Definition delete_router_assoc (info : request_info) : M unit :=
  context ← lift (item "context" (info_context info));
  router_assoc ← lift (item "router_association" (info_router_association info));
  router_id ← lift (dict_item router_assoc "router_id");
  let filters := router_port_filters router_id in
  let router_ports := get_ports context filters in
  port_ids ← mapM lsp_uuid_of router_ports;
  let commands :=
    map (λ port_id, db_remove "Logical_Switch_Port" port_id
                      "external_ids" constants.OVN_EVPN_VNI_EXT_ID_KEY) port_ids in
  _execute_commands commands.

Definition add_router_interface (info : request_info) : M unit :=
  port_id ← lift (item "port_id" (info_port_id info));
  bgpvpn ← lift (item "bgpvpn" (info_bgpvpn info));
  let external_ids := evpn_external_ids bgpvpn in
  lsp ← lsp_get port_id;
  execute (db_set "Logical_Switch_Port" (lsp_uuid lsp)
             ("external_ids", external_ids)).

Definition remove_router_interface (info : request_info) : M unit :=
  port_id ← lift (item "port_id" (info_port_id info));
  lsp ← lsp_get port_id;
  execute (db_remove "Logical_Switch_Port" (lsp_uuid lsp)
             "external_ids" constants.OVN_EVPN_VNI_EXT_ID_KEY).

Definition _init_bgpvpn_actions : gmap string (request_info → M unit) :=
  <[constants.REQ_TYPE_ADD_ROUTER_INTERFACE := add_router_interface]>
    (<[constants.REQ_TYPE_DELETE_ROUTER_ASSOC := delete_router_assoc]>
       (<[constants.REQ_TYPE_CREATE_ROUTER_ASSOC := create_router_assoc]> ∅)).

Definition _bgpvpn_request_func_maps := _init_bgpvpn_actions.

(** The body of the [while True] loop below the exit test, for one
    dequeued request. *)
Definition dispatch (request : request) (db : nbdb) : outcome * nbdb :=
  match _bgpvpn_request_func_maps !! req_type request with
  | Some request_handler =>
      match (info ← lift (item "info" (req_info request));
             request_handler info) db with
      | (Ok _, db') => (Handled, db')
      | (Raise e, db') => (Logged e, db')
      end
  | None => (NoHandler, db)
  end.

(** One pass of the worker thread through the loop.  It does nothing when
    the thread has ended or when [get] blocks on the empty queue. *)
Definition iteration (h : OvnProviderHelper) : OvnProviderHelper :=
  if _helper_thread_alive h then
    match _requests h with
    | [] => h
    | request :: rest =>
        if String.eqb (req_type request) constants.REQ_TYPE_EXIT then
          {| _requests := rest; _helper_thread_alive := false;
             ovn_nbdb := ovn_nbdb h;
             ovn_nbdb_started := ovn_nbdb_started h;
             history := history h ++ [Exited] |}
        else
          let '(o, db') := dispatch request (ovn_nbdb h) in
          {| _requests := rest; _helper_thread_alive := true;
             ovn_nbdb := db';
             ovn_nbdb_started := ovn_nbdb_started h;
             history := history h ++ [Processed request o] |}
    end
  else h.

(** The loop run on the queue as it stands, until [break] or until [get]
    blocks: the rest of the queue, whether the thread is still alive, the
    database, and the events, oldest first. *)
Fixpoint run_loop (queue : list request) (db : nbdb)
    : list request * bool * nbdb * list event :=
  match queue with
  | [] => ([], true, db, [])
  | request :: rest =>
      if String.eqb (req_type request) constants.REQ_TYPE_EXIT then
        (rest, false, db, [Exited])
      else
        let '(o, db') := dispatch request db in
        let '(q, alive, db'', evs) := run_loop rest db' in
        (q, alive, db'', Processed request o :: evs)
  end.

Definition _request_handler (h : OvnProviderHelper) : OvnProviderHelper :=
  if _helper_thread_alive h then
    let '(q, alive, db, evs) := run_loop (_requests h) (ovn_nbdb h) in
    {| _requests := q; _helper_thread_alive := alive; ovn_nbdb := db;
       ovn_nbdb_started := ovn_nbdb_started h;
       history := history h ++ evs |}
  else h.

Definition add_request (req : request) (h : OvnProviderHelper)
    : OvnProviderHelper :=
  {| _requests := _requests h ++ [req];
     _helper_thread_alive := _helper_thread_alive h;
     ovn_nbdb := ovn_nbdb h;
     ovn_nbdb_started := ovn_nbdb_started h;
     history := history h |}.

Definition exit_request : request :=
  {| req_type := constants.REQ_TYPE_EXIT; req_info := None |}.

(** [shutdown]: put the exit request, join the worker thread, stop the
    connection.  [join] returns once the thread has ended; [None] stands
    for a [join] that never returns, the worker being blocked in [get]. *)
Definition shutdown (h : OvnProviderHelper) : option OvnProviderHelper :=
  let h1 := add_request exit_request h in
  let h2 := _request_handler h1 in
  if _helper_thread_alive h2 then None
  else Some {| _requests := _requests h2;
               _helper_thread_alive := false;
               ovn_nbdb := ovn_nbdb h2;
               ovn_nbdb_started := false;
               history := history h2 ++ [ConnectionStopped] |}.

(** Producers and the worker thread interleave: a schedule is a sequence
    of [put]s by producers and of passes of the worker through its loop. *)
Inductive action : Type :=
  | Put (req : request)
  | Work.

Definition step (h : OvnProviderHelper) (a : action) : OvnProviderHelper :=
  match a with
  | Put req => add_request req h
  | Work => iteration h
  end.

Definition run (schedule : list action) (h : OvnProviderHelper)
    : OvnProviderHelper :=
  foldl step h schedule.

End Helper.

(** A fresh helper on a database: empty queue, thread started. *)
Definition new_helper (db : nbdb) : OvnProviderHelper :=
  {| _requests := []; _helper_thread_alive := true; ovn_nbdb := db;
     ovn_nbdb_started := true; history := [] |}.

End helper.

(** ** ovn.py *)

Module ovn.

Definition OVN_DRIVER_NAME := "ovn".

(** The filters of [get_bgpvpns] and [get_router_assocs]. *)
Record bgpvpn_filters : Type := {
  routers : list pyval
}.

(** The payload of a registry notification. *)
Record event_payload : Type := {
  payload_context : helper.context;
  payload_resource_id : pyval;
  payload_metadata : gmap string dict
}.

Section Driver.

(** The service plugin's lookups, inherited from the driver base class. *)
Variable get_bgpvpn : helper.context → pyval → result dict.
Variable get_bgpvpns : helper.context → bgpvpn_filters → result (list dict).
Variable get_router_assocs :
  helper.context → pyval → bgpvpn_filters → result (list dict).

Definition _common_precommit_checks (bgpvpn : dict) : result unit :=
  (* No support yet for specifying route distinguishers *)
  if truthy (dict_get bgpvpn "route_distinguishers") then
    Raise (BGPVPNRDNotSupported OVN_DRIVER_NAME)
  (* No support yet for specifying route targets *)
  else if truthy (dict_get bgpvpn "route_targets") then
    Raise (BGPVPNRTNotSupported OVN_DRIVER_NAME)
  (* No support yet for specifying import targets *)
  else if truthy (dict_get bgpvpn "import_targets") then
    Raise (BGPVPNITNotSupported OVN_DRIVER_NAME)
  (* No support yet for specifying export targets *)
  else if truthy (dict_get bgpvpn "export_targets") then
    Raise (BGPVPNETNotSupported OVN_DRIVER_NAME)
  (* No support yet for specifying local pref *)
  else if truthy (dict_get bgpvpn "local_pref") then
    Raise (BGPVPNLocalPrefNotSupported OVN_DRIVER_NAME)
  (* Only l3 type is supported *)
  else
    let bgp_type := dict_get bgpvpn "type" in
    if negb (py_in bgp_type constants.OVN_SUPPORTED_BGPVPN_TYPES) then
      Raise (BGPVPNTypeNotSupported OVN_DRIVER_NAME bgp_type)
    else Ok ().

(** The driver's methods run on the helper it owns, [self._ovn_helper]. *)
Definition create_bgpvpn_precommit (context : helper.context) (bgpvpn : dict)
    (h : helper.OvnProviderHelper) : result unit * helper.OvnProviderHelper :=
  (_common_precommit_checks bgpvpn, h).

Definition update_bgpvpn_precommit (context : helper.context)
    (old_bgpvpn bgpvpn : dict)
    (h : helper.OvnProviderHelper) : result unit * helper.OvnProviderHelper :=
  (_common_precommit_checks bgpvpn, h).

Definition create_router_assoc_precommit (context : helper.context)
    (router_assoc : dict)
    (h : helper.OvnProviderHelper) : result unit * helper.OvnProviderHelper :=
  match dict_item router_assoc "bgpvpn_id" with
  | Raise e => (Raise e, h)
  | Ok bgpvpn_id =>
      match get_bgpvpn context bgpvpn_id with
      | Raise e => (Raise e, h)
      | Ok bgpvpn =>
          let request :=
            {| helper.req_type := constants.REQ_TYPE_CREATE_ROUTER_ASSOC;
               helper.req_info :=
                 Some {| helper.info_context := Some context;
                         helper.info_router_association := Some router_assoc;
                         helper.info_bgpvpn := Some bgpvpn;
                         helper.info_port_id := None |} |} in
          (Ok (), helper.add_request request h)
      end
  end.

Definition delete_router_assoc_precommit (context : helper.context)
    (router_assoc : dict)
    (h : helper.OvnProviderHelper) : result unit * helper.OvnProviderHelper :=
  let request :=
    {| helper.req_type := constants.REQ_TYPE_DELETE_ROUTER_ASSOC;
       helper.req_info :=
         Some {| helper.info_context := Some context;
                 helper.info_router_association := Some router_assoc;
                 helper.info_bgpvpn := None;
                 helper.info_port_id := None |} |} in
  (Ok (), helper.add_request request h).

(** The [try] block of [registry_router_interface_created]. *)
Definition router_interface_created_body (payload : event_payload)
    (h : helper.OvnProviderHelper) : result unit * helper.OvnProviderHelper :=
  let context := payload_context payload in
  let router_id := payload_resource_id payload in
  match payload_metadata payload !! "port" with
  | None => (Raise (AttributeError "get"), h)
  | Some port =>
      let port_id := dict_get port "id" in
      let filters := {| routers := [router_id] |} in
      match get_bgpvpns context filters with
      | Raise e => (Raise e, h)
      | Ok bgpvpns =>
          (* Ignore if the router in which a router interface was plugged
             is not associated to a BGPVPN *)
          match bgpvpns with
          | [] => (Ok (), h)
          | bgpvpn0 :: _ =>
              let request :=
                {| helper.req_type := constants.REQ_TYPE_ADD_ROUTER_INTERFACE;
                   helper.req_info :=
                     Some {| helper.info_context := None;
                             helper.info_router_association := None;
                             helper.info_bgpvpn := Some bgpvpn0;
                             helper.info_port_id := Some port_id |} |} in
              (Ok (), helper.add_request request h)
          end
      end
  end.

(** [registry_router_interface_created]: whatever the body raises is
    logged, not raised; the logged exception is returned next to the
    helper. *)
Definition registry_router_interface_created (payload : event_payload)
    (h : helper.OvnProviderHelper) : option exn * helper.OvnProviderHelper :=
  match router_interface_created_body payload h with
  | (Ok _, h') => (None, h')
  | (Raise e, h') => (Some e, h')
  end.

Definition router_gateway_created_body (payload : event_payload)
    (h : helper.OvnProviderHelper) : result unit * helper.OvnProviderHelper :=
  let context := payload_context payload in
  let router_id := payload_resource_id payload in
  let filters := {| routers := [router_id] |} in
  match get_bgpvpns context filters with
  | Raise e => (Raise e, h)
  | Ok [] => (Ok (), h)
  | Ok (bgpvpn0 :: _) =>
      match dict_item bgpvpn0 "id" with
      | Raise e => (Raise e, h)
      | Ok bgpvpn_id =>
          match get_router_assocs context bgpvpn_id filters with
          | Raise e => (Raise e, h)
          | Ok [] => (Raise IndexError, h)
          | Ok (router_assoc0 :: _) =>
              let request :=
                {| helper.req_type := constants.REQ_TYPE_CREATE_ROUTER_ASSOC;
                   helper.req_info :=
                     Some {| helper.info_context := Some context;
                             helper.info_router_association := Some router_assoc0;
                             helper.info_bgpvpn := Some bgpvpn0;
                             helper.info_port_id := None |} |} in
              (Ok (), helper.add_request request h)
          end
      end
  end.

Definition registry_router_gateway_crated (payload : event_payload)
    (h : helper.OvnProviderHelper) : option exn * helper.OvnProviderHelper :=
  match router_gateway_created_body payload h with
  | (Ok _, h') => (None, h')
  | (Raise e, h') => (Some e, h')
  end.

End Driver.

End ovn.

Import constants helper ovn.

(** * Properties *)

(** ** Vocabulary of the handlers' properties *)

Definition set_ids (f : gmap string string → gmap string string)
    (r : Logical_Switch_Port) : Logical_Switch_Port :=
  {| lsp_uuid := lsp_uuid r; lsp_name := lsp_name r;
     lsp_external_ids := f (lsp_external_ids r) |}.

(** The rows whose uuid is one of [us] get [f] on their [external_ids]. *)
Definition update_rows (us : list N)
    (f : gmap string string → gmap string string) (db : nbdb) : nbdb :=
  map (λ r, if existsb (N.eqb (lsp_uuid r)) us then set_ids f r else r) db.

(** The row a port id names, and the row a port dict resolves to: its
    ['id'] looked up by name. *)
Definition resolve_name (db : nbdb) (port : pyval)
    : option Logical_Switch_Port :=
  match port with
  | PStr n => find (λ r, String.eqb (lsp_name r) n) db
  | _ => None
  end.

Definition resolve (db : nbdb) (iface : dict) : option Logical_Switch_Port :=
  match iface !! "id" with
  | Some port => resolve_name db port
  | None => None
  end.

Definition resolved_uuids (db : nbdb) (ifaces : list dict) : list N :=
  omap (λ iface, lsp_uuid <$> resolve db iface) ifaces.

Definition all_resolve (db : nbdb) (ifaces : list dict) : bool :=
  forallb (λ iface, bool_decide (is_Some (resolve db iface))) ifaces.

(** The row of a port carries the value [v] under the key [k]. *)
Definition carries (db : nbdb) (iface : dict) (k v : string) : Prop :=
  ∃ row, resolve db iface = Some row ∧ lsp_external_ids row !! k = Some v.

(** ** Vocabulary of the worker's properties *)

(** A command: a request other than the exit request. *)
Definition is_command (r : request) : bool :=
  negb (String.eqb (req_type r) REQ_TYPE_EXIT).

(** The requests a schedule puts on the queue, in the order of the puts. *)
Definition puts (schedule : list action) : list request :=
  omap (λ a, match a with Put req => Some req | Work => None end) schedule.

Section InOrder.

Variable get_ports : context → port_filters → list dict.
Variable ROUTER_PORT_OWNERS : list string.
Variable bgp_as : pyval.

(** The requests dispatched one after the other, each on the database the
    one before it left: the events, oldest first, and the last database. *)
Fixpoint in_order (rs : list request) (db : nbdb) : list event * nbdb :=
  match rs with
  | [] => ([], db)
  | r :: rs' =>
      let '(o, db') := dispatch get_ports ROUTER_PORT_OWNERS bgp_as r db in
      let '(evs, db'') := in_order rs' db' in
      (Processed r o :: evs, db'')
  end.

End InOrder.

(** ** Sample data *)

Module sample.

Definition ctx : context := Context "fake_user" "tenant-1".

Definition port1 : dict :=
  <["id" := PStr "port-1"]>
    (<["device_id" := PStr "router-1"]>
       (<["device_owner" := PStr "network:router_interface"]> ∅)).

Definition port2 : dict :=
  <["id" := PStr "port-2"]>
    (<["device_id" := PStr "router-1"]>
       (<["device_owner" := PStr "network:router_gateway"]> ∅)).

(** A port without a row in the store. *)
Definition port9 : dict :=
  <["id" := PStr "port-9"]>
    (<["device_id" := PStr "router-9"]>
       (<["device_owner" := PStr "network:router_interface"]> ∅)).

Definition ROUTER_PORT_OWNERS : list string :=
  ["network:router_interface"; "network:ha_router_replicated_interface";
   "network:router_interface_distributed"; "network:router_centralized_snat";
   "network:router_gateway"].

Definition get_ports (_ : context) (filters : port_filters) : list dict :=
  if py_in (PStr "router-1") (device_id filters) then [port1; port2]
  else if py_in (PStr "router-9") (device_id filters) then [port9]
  else [].

Definition bgp_as : pyval := PInt 64999.

Definition db0 : nbdb :=
  [ {| lsp_uuid := 1; lsp_name := "port-1";
       lsp_external_ids :=
         <["neutron:cidrs" := "10.0.0.1/24"]>
           (<["neutron_bgpvpn:as" := "64999"]>
              (<["neutron_bgpvpn:vni" := "7"]> ∅)) |};
    {| lsp_uuid := 2; lsp_name := "port-2"; lsp_external_ids := ∅ |};
    {| lsp_uuid := 3; lsp_name := "port-3"; lsp_external_ids := ∅ |} ].

Definition bgpvpn1 : dict :=
  <["id" := PStr "bgpvpn-1"]>
    (<["type" := PStr "l3"]> (<["vni" := PInt 1001]> ∅)).

(** A bgpvpn without the key ['vni']. *)
Definition bgpvpn_no_vni : dict :=
  <["id" := PStr "bgpvpn-2"]> (<["type" := PStr "l3"]> ∅).

Definition bgpvpn_local_pref_0 : dict :=
  <["local_pref" := PInt 0]> (<["type" := PStr "l3"]> ∅).

Definition router_assoc1 : dict :=
  <["id" := PStr "assoc-1"]>
    (<["router_id" := PStr "router-1"]>
       (<["bgpvpn_id" := PStr "bgpvpn-1"]> ∅)).

Definition router_assoc9 : dict :=
  <["id" := PStr "assoc-9"]>
    (<["router_id" := PStr "router-9"]>
       (<["bgpvpn_id" := PStr "bgpvpn-1"]> ∅)).

Definition info_assoc (ra bgpvpn : dict) : request_info :=
  {| info_context := Some ctx; info_router_association := Some ra;
     info_bgpvpn := Some bgpvpn; info_port_id := None |}.

Definition info_interface (port : pyval) (bgpvpn : dict) : request_info :=
  {| info_context := None; info_router_association := None;
     info_bgpvpn := Some bgpvpn; info_port_id := Some port |}.

Definition req_create : request :=
  {| req_type := REQ_TYPE_CREATE_ROUTER_ASSOC;
     req_info := Some (info_assoc router_assoc1 bgpvpn1) |}.

Definition req_create9 : request :=
  {| req_type := REQ_TYPE_CREATE_ROUTER_ASSOC;
     req_info := Some (info_assoc router_assoc9 bgpvpn1) |}.

Definition req_delete : request :=
  {| req_type := REQ_TYPE_DELETE_ROUTER_ASSOC;
     req_info := Some (info_assoc router_assoc1 bgpvpn1) |}.

Definition req_interface : request :=
  {| req_type := REQ_TYPE_ADD_ROUTER_INTERFACE;
     req_info := Some (info_interface (PStr "port-3") bgpvpn1) |}.

Definition req_unknown : request :=
  {| req_type := "remove_router_interface";
     req_info := Some (info_interface (PStr "port-3") bgpvpn1) |}.

(** A helper whose first queued command fails: port-9 has no row. *)
Definition helper_failing : OvnProviderHelper :=
  {| _requests := [req_create9; req_interface];
     _helper_thread_alive := true; ovn_nbdb := db0;
     ovn_nbdb_started := true; history := [] |}.

Definition helper_unknown : OvnProviderHelper :=
  {| _requests := [req_unknown; req_create];
     _helper_thread_alive := true; ovn_nbdb := db0;
     ovn_nbdb_started := true; history := [] |}.

Definition schedule : list action :=
  [Put req_create; Put req_delete; Work; Put req_interface; Work; Work].

Definition get_bgpvpns (_ : context) (filters : bgpvpn_filters)
    : result (list dict) :=
  if py_in (PStr "router-1") (routers filters)
  then Ok [bgpvpn1; bgpvpn_no_vni] else Ok [].

Definition payload (router_id : string) : event_payload :=
  {| payload_context := ctx;
     payload_resource_id := PStr router_id;
     payload_metadata := <["port" := port1]> ∅ |}.

End sample.

(** ** Vocabulary of the store's invariant *)

(** [db'] has the rows of [db], in the same order, with the same uuid and
    name, and with the same [external_ids] but for the two keys of the
    driver. *)
Definition keeps_ports (db db' : nbdb) : Prop :=
  Forall2 (λ r r',
             lsp_uuid r' = lsp_uuid r ∧
             lsp_name r' = lsp_name r ∧
             ∀ k, k ≠ OVN_EVPN_VNI_EXT_ID_KEY → k ≠ OVN_EVPN_AS_EXT_ID_KEY →
                  lsp_external_ids r' !! k = lsp_external_ids r !! k)
          db db'.

(** A function on [external_ids] that leaves all keys but the driver's two
    as they are. *)
Definition own_keys_only (f : gmap string string → gmap string string)
    : Prop :=
  ∀ ids k, k ≠ OVN_EVPN_VNI_EXT_ID_KEY → k ≠ OVN_EVPN_AS_EXT_ID_KEY →
           f ids !! k = ids !! k.

(** ** Vocabulary of the callbacks' properties *)

(** From [h] to [h'] nothing changed but, at most, one request put at the
    tail of the queue. *)
Definition puts_at_most_one (h h' : OvnProviderHelper) : Prop :=
  ovn_nbdb h' = ovn_nbdb h ∧
  history h' = history h ∧
  _helper_thread_alive h' = _helper_thread_alive h ∧
  ovn_nbdb_started h' = ovn_nbdb_started h ∧
  (_requests h' = _requests h ∨ ∃ req, _requests h' = _requests h ++ [req]).

(** ** More sample data *)

Module sample2.

(** A router without ports. *)
Definition router_assoc0 : dict :=
  <["id" := PStr "assoc-0"]>
    (<["router_id" := PStr "router-0"]>
       (<["bgpvpn_id" := PStr "bgpvpn-1"]> ∅)).

(** A directory in which the second port of router-1 has no row. *)
Definition get_ports_mixed (_ : context) (filters : port_filters)
    : list dict :=
  if py_in (PStr "router-1") (device_id filters)
  then [sample.port1; sample.port9; sample.port2]
  else [].

(** A store without any annotation of the driver. *)
Definition db_plain : nbdb :=
  [ {| lsp_uuid := 1; lsp_name := "port-1";
       lsp_external_ids := <["neutron:cidrs" := "10.0.0.1/24"]> ∅ |};
    {| lsp_uuid := 2; lsp_name := "port-2"; lsp_external_ids := ∅ |} ].

Definition row1 : Logical_Switch_Port :=
  {| lsp_uuid := 1; lsp_name := "port-1";
     lsp_external_ids :=
       <["neutron:cidrs" := "10.0.0.1/24"]>
         (<["neutron_bgpvpn:as" := "64999"]>
            (<["neutron_bgpvpn:vni" := "7"]> ∅)) |}.

Definition row3 : Logical_Switch_Port :=
  {| lsp_uuid := 3; lsp_name := "port-3"; lsp_external_ids := ∅ |}.

Definition bgpvpn_with_targets : dict :=
  <["route_targets" := PList [PStr "4444:55"]]> (<["type" := PStr "l3"]> ∅).

(** A helper whose worker thread has ended with a command still queued. *)
Definition helper_ended : OvnProviderHelper :=
  {| _requests := [sample.req_create]; _helper_thread_alive := false;
     ovn_nbdb := sample.db0; ovn_nbdb_started := true;
     history := [Exited] |}.

Definition get_bgpvpn (_ : context) (bgpvpn_id : pyval) : result dict :=
  if py_eq bgpvpn_id (PStr "bgpvpn-1") then Ok sample.bgpvpn1
  else Raise (LookupFailure "bgpvpn").

Definition get_router_assocs (_ : context) (bgpvpn_id : pyval)
    (filters : bgpvpn_filters) : result (list dict) :=
  if py_eq bgpvpn_id (PStr "bgpvpn-1") && py_in (PStr "router-1") (routers filters)
  then Ok [sample.router_assoc1] else Ok [].

End sample2.

(** ** Facts about the store *)

Lemma foldl_snoc {A} (acc cs : list A) :
  foldl (λ txn c, txn ++ [c]) acc cs = acc ++ cs.
Proof.
  revert acc. induction cs as [|c cs IH]; intros acc; simpl.
  - by rewrite app_nil_r.
  - rewrite IH. by rewrite <- app_assoc.
Qed.

Lemma _execute_commands_transaction cs :
  _execute_commands cs = transaction cs.
Proof. unfold _execute_commands. by rewrite foldl_snoc. Qed.

Lemma transaction_raise_unchanged cs db e db' :
  transaction cs db = (Raise e, db') → db' = db.
Proof.
  unfold transaction. destruct (run_commands cs db); intros [= ]; congruence.
Qed.

Lemma update_row_eq u f db :
  update_row u f db =
  map (λ r, if (lsp_uuid r =? u)%N then set_ids f r else r) db.
Proof. reflexivity. Qed.

Lemma has_row_map g u db :
  (∀ r, lsp_uuid (g r) = lsp_uuid r) →
  has_row u (map g db) = has_row u db.
Proof.
  intros Hg. unfold has_row. induction db as [|r db IH]; simpl; [done|].
  by rewrite Hg, IH.
Qed.

Lemma has_row_update_row u u' f db :
  has_row u (update_row u' f db) = has_row u db.
Proof.
  apply has_row_map. intros r. by destruct (lsp_uuid r =? u')%N.
Qed.

Lemma find_name_map g n db :
  (∀ r, lsp_name (g r) = lsp_name r) →
  find (λ r, String.eqb (lsp_name r) n) (map g db)
  = g <$> find (λ r, String.eqb (lsp_name r) n) db.
Proof.
  intros Hg. induction db as [|r db IH]; simpl; [done|].
  rewrite Hg. by destruct (String.eqb (lsp_name r) n).
Qed.

Lemma find_has_row P db r :
  find P db = Some r → has_row (lsp_uuid r) db = true.
Proof.
  unfold has_row. induction db as [|x db IH]; simpl; [done|].
  destruct (P x).
  - intros [= ->]. by rewrite N.eqb_refl.
  - intros H. rewrite (IH H). apply orb_true_r.
Qed.

Lemma update_rows_cons u us f db :
  (∀ ids, f (f ids) = f ids) →
  update_rows us f (update_row u f db) = update_rows (u :: us) f db.
Proof.
  intros Hf. unfold update_rows, update_row. rewrite map_map.
  apply map_ext. intros r. simpl.
  rewrite (N.eqb_sym (lsp_uuid r) u).
  destruct (u =? lsp_uuid r)%N; simpl; [|done].
  destruct (existsb _ us); [|done].
  unfold set_ids; simpl. by rewrite Hf.
Qed.

Lemma update_rows_nil f db : update_rows [] f db = db.
Proof. unfold update_rows. simpl. apply map_id. Qed.

Lemma update_rows_idemp us f db :
  (∀ ids, f (f ids) = f ids) →
  update_rows us f (update_rows us f db) = update_rows us f db.
Proof.
  intros Hf. unfold update_rows. rewrite map_map. apply map_ext.
  intros r. destruct (existsb (N.eqb (lsp_uuid r)) us) eqn:E; simpl;
    rewrite E; [|done].
  unfold set_ids; simpl. by rewrite Hf.
Qed.

Lemma forallb_pointwise {A} (f g : A → bool) l :
  (∀ x, f x = g x) → forallb f l = forallb g l.
Proof. intros H. induction l as [|x l IH]; simpl; [done|]. by rewrite H, IH. Qed.

(** A list of commands that each update one row by the same idempotent [f]
    commits as one update of all the rows named. *)
Lemma run_commands_update (mk : N → command) f us db :
  (∀ u d, has_row u d = true → run_command (mk u) d = Ok (update_row u f d)) →
  (∀ ids, f (f ids) = f ids) →
  forallb (λ u, has_row u db) us = true →
  run_commands (map mk us) db = Ok (update_rows us f db).
Proof.
  intros Hmk Hf. revert db.
  induction us as [|u us IH]; intros db Hall; simpl.
  - by rewrite update_rows_nil.
  - simpl in Hall. apply andb_true_iff in Hall as [Hu Hus].
    rewrite (Hmk _ _ Hu). rewrite IH.
    + by rewrite update_rows_cons.
    + rewrite <- Hus. apply forallb_pointwise. intros v.
      apply has_row_update_row.
Qed.

Lemma run_db_set u v d :
  has_row u d = true →
  run_command (db_set "Logical_Switch_Port" u ("external_ids", v)) d
  = Ok (update_row u (λ ids, v ∪ ids) d).
Proof. intros H. unfold db_set; simpl. by rewrite H. Qed.

Lemma run_db_remove u k d :
  has_row u d = true →
  run_command (db_remove "Logical_Switch_Port" u "external_ids" k) d
  = Ok (update_row u (delete k) d).
Proof. intros H. unfold db_remove; simpl. by rewrite H. Qed.

Lemma union_twice (v ids : gmap string string) : v ∪ (v ∪ ids) = v ∪ ids.
Proof. by rewrite (assoc_L (∪)), (idemp_L (∪)). Qed.

Lemma delete_twice k (ids : gmap string string) :
  delete k (delete k ids) = delete k ids.
Proof. apply delete_delete_eq. Qed.

(** ** The handlers *)

Section HandlerFacts.

Variable get_ports : context → port_filters → list dict.
Variable ROUTER_PORT_OWNERS : list string.
Variable bgp_as : pyval.

Local Abbreviation create_router_assoc :=
  (create_router_assoc get_ports ROUTER_PORT_OWNERS bgp_as).
Local Abbreviation delete_router_assoc :=
  (delete_router_assoc get_ports ROUTER_PORT_OWNERS).
Local Abbreviation add_router_interface := (add_router_interface bgp_as).
Local Abbreviation router_ports ctx rid :=
  (get_ports ctx (router_port_filters ROUTER_PORT_OWNERS rid)).

Lemma bind_run {A B} (m : M A) (f : A → M B) db :
  (m ≫= f) db
  = match m db with
    | (Ok a, db') => f a db'
    | (Raise e, db') => (Raise e, db')
    end.
Proof. reflexivity. Qed.

Lemma bind_item_some {A B} k (a : A) (f : A → M B) db :
  (lift (item k (Some a)) ≫= f) db = f a db.
Proof. reflexivity. Qed.

Lemma bind_item_none {A B} k (f : A → M B) db :
  (lift (item k None) ≫= f) db = (Raise (KeyError k), db).
Proof. reflexivity. Qed.

Lemma bind_dict_item {B} (d : dict) k (f : pyval → M B) db :
  (lift (dict_item d k) ≫= f) db
  = match d !! k with
    | Some v => f v db
    | None => (Raise (KeyError k), db)
    end.
Proof. unfold dict_item. by destruct (d !! k). Qed.

Lemma lsp_get_named port db r :
  resolve_name db port = Some r → lsp_get port db = (Ok r, db).
Proof.
  unfold resolve_name, lsp_get. destruct port; try done. by intros ->.
Qed.

Lemma lsp_get_unnamed port db :
  resolve_name db port = None → ∃ e, lsp_get port db = (Raise e, db).
Proof.
  unfold resolve_name, lsp_get. destruct port; eauto. intros ->. eauto.
Qed.

Lemma lsp_get_resolve iface db r :
  resolve db iface = Some r → lsp_uuid_of iface db = (Ok (lsp_uuid r), db).
Proof.
  unfold resolve, lsp_uuid_of. rewrite bind_dict_item.
  destruct (iface !! "id") as [port|]; [|done].
  intros H. by rewrite bind_run, (lsp_get_named _ _ _ H).
Qed.

Lemma lsp_get_unresolved iface db :
  resolve db iface = None → ∃ e, lsp_uuid_of iface db = (Raise e, db).
Proof.
  unfold resolve, lsp_uuid_of. rewrite bind_dict_item.
  destruct (iface !! "id") as [port|]; [|eauto].
  intros H. rewrite bind_run. destruct (lsp_get_unnamed _ _ H) as [e ->]. eauto.
Qed.

Lemma resolve_name_has_row db port r :
  resolve_name db port = Some r → has_row (lsp_uuid r) db = true.
Proof. destruct port; try done. apply find_has_row. Qed.

Lemma resolve_name_map g db port :
  (∀ r, lsp_name (g r) = lsp_name r) →
  resolve_name (map g db) port = g <$> resolve_name db port.
Proof. intros Hg. destruct port; try done. by apply find_name_map. Qed.

Lemma resolved_uuids_cons db p ps :
  resolved_uuids db (p :: ps)
  = match resolve db p with
    | Some r => lsp_uuid r :: resolved_uuids db ps
    | None => resolved_uuids db ps
    end.
Proof. unfold resolved_uuids; simpl. by destruct (resolve db p). Qed.

Lemma mapM_resolve ifaces db :
  all_resolve db ifaces = true →
  mapM lsp_uuid_of ifaces db = (Ok (resolved_uuids db ifaces), db).
Proof.
  induction ifaces as [|p ps IH]; [done|].
  intros [Hp Hps]%andb_true_iff.
  apply bool_decide_eq_true in Hp as [r Hr].
  rewrite resolved_uuids_cons, Hr. cbn [mapM].
  rewrite bind_run, (lsp_get_resolve _ _ _ Hr).
  rewrite bind_run, (IH Hps). done.
Qed.

Lemma mapM_unresolved ifaces db :
  all_resolve db ifaces = false →
  ∃ e, mapM lsp_uuid_of ifaces db = (Raise e, db).
Proof.
  induction ifaces as [|p ps IH]; simpl; [done|].
  intros H. rewrite bind_run.
  destruct (resolve db p) as [r|] eqn:Hr.
  - rewrite (lsp_get_resolve _ _ _ Hr).
    rewrite bool_decide_eq_true_2 in H by eauto. simpl in H.
    destruct (IH H) as [e He]. rewrite bind_run, He. eauto.
  - destruct (lsp_get_unresolved _ _ Hr) as [e ->]. eauto.
Qed.

Lemma resolved_have_rows db ifaces :
  forallb (λ u, has_row u db) (resolved_uuids db ifaces) = true.
Proof.
  induction ifaces as [|p ps IH]; [done|]. rewrite resolved_uuids_cons.
  destruct (resolve db p) as [r|] eqn:Hr; simpl; [|done].
  apply andb_true_iff; split; [|exact IH]. unfold resolve in Hr.
  destruct (p !! "id") as [port|]; [|done].
  by eapply resolve_name_has_row.
Qed.

Lemma resolve_update_rows us f db iface :
  resolve (update_rows us f db) iface
  = (λ r, if existsb (N.eqb (lsp_uuid r)) us then set_ids f r else r)
      <$> resolve db iface.
Proof.
  unfold resolve. destruct (iface !! "id") as [port|]; [|done].
  unfold update_rows. apply resolve_name_map.
  intros r. by destruct (existsb _ us).
Qed.

Lemma resolved_uuids_update_rows us f db ifaces :
  resolved_uuids (update_rows us f db) ifaces = resolved_uuids db ifaces.
Proof.
  induction ifaces as [|p ps IH]; [done|].
  rewrite !resolved_uuids_cons, resolve_update_rows, IH.
  destruct (resolve db p) as [r|]; simpl; [|done].
  by destruct (existsb _ us).
Qed.

Lemma all_resolve_update_rows us f db ifaces :
  all_resolve (update_rows us f db) ifaces = all_resolve db ifaces.
Proof.
  unfold all_resolve. apply forallb_pointwise. intros p.
  rewrite resolve_update_rows. apply bool_decide_ext.
  by rewrite fmap_is_Some.
Qed.

(** A row that one of the ports resolves to is among the rows updated. *)
Lemma resolved_uuid_listed db ifaces iface r :
  iface ∈ ifaces → resolve db iface = Some r →
  existsb (N.eqb (lsp_uuid r)) (resolved_uuids db ifaces) = true.
Proof.
  induction 1 as [p ps|p q ps _ IH]; rewrite resolved_uuids_cons.
  - intros ->. simpl. by rewrite N.eqb_refl.
  - intros Hr. destruct (resolve db q); simpl; [|by apply IH].
    rewrite (IH Hr). apply orb_true_r.
Qed.

(** *** [create_router_assoc] *)

Lemma create_router_assoc_ok info ctx ra bgpvpn rid db :
  info_context info = Some ctx →
  info_router_association info = Some ra →
  info_bgpvpn info = Some bgpvpn →
  ra !! "router_id" = Some rid →
  all_resolve db (router_ports ctx rid) = true →
  create_router_assoc info db
  = (Ok (), update_rows (resolved_uuids db (router_ports ctx rid))
              (λ ids, evpn_external_ids bgp_as bgpvpn ∪ ids) db).
Proof.
  intros Hc Hra Hb Hrid Hall. unfold helper.create_router_assoc.
  rewrite Hc, Hra, Hb, !bind_item_some, bind_dict_item, Hrid.
  rewrite bind_run, (mapM_resolve _ _ Hall).
  rewrite _execute_commands_transaction. unfold transaction.
  rewrite (run_commands_update _ (λ ids, evpn_external_ids bgp_as bgpvpn ∪ ids)).
  - done.
  - intros u d. apply run_db_set.
  - intros ids. apply union_twice.
  - apply resolved_have_rows.
Qed.

Lemma create_router_assoc_inv info r db db' :
  create_router_assoc info db = (r, db') →
  (∃ e, r = Raise e ∧ db' = db) ∨
  (∃ ctx ra bgpvpn rid,
      info_context info = Some ctx ∧
      info_router_association info = Some ra ∧
      info_bgpvpn info = Some bgpvpn ∧
      ra !! "router_id" = Some rid ∧
      all_resolve db (router_ports ctx rid) = true).
Proof.
  destruct (info_context info) as [ctx|] eqn:Hc;
  [destruct (info_router_association info) as [ra|] eqn:Hra;
   [destruct (info_bgpvpn info) as [bgpvpn|] eqn:Hb;
    [destruct (ra !! "router_id") as [rid|] eqn:Hrid;
     [destruct (all_resolve db (router_ports ctx rid)) eqn:Hall|]|]|]|].
  1: { intros _. right. by exists ctx, ra, bgpvpn, rid. }
  all: unfold helper.create_router_assoc; rewrite ?Hc, ?Hra, ?Hb;
    rewrite ?bind_item_some, ?bind_item_none, ?bind_dict_item, ?Hrid.
  2-5: intros [= <- <-]; left; eauto.
  rewrite bind_run. destruct (mapM_unresolved _ _ Hall) as [e ->].
  intros [= <- <-]; left; eauto.
Qed.

Lemma resolved_uuids_length db ifaces :
  all_resolve db ifaces = true →
  length (resolved_uuids db ifaces) = length ifaces.
Proof.
  induction ifaces as [|p ps IH]; [done|].
  intros [Hp Hps]%andb_true_iff.
  apply bool_decide_eq_true in Hp as [r Hr].
  rewrite resolved_uuids_cons, Hr. simpl. by rewrite IH.
Qed.

Lemma all_resolve_elem db ifaces iface :
  all_resolve db ifaces = true → iface ∈ ifaces →
  ∃ r, resolve db iface = Some r.
Proof.
  intros Hall Hin. unfold all_resolve in Hall.
  rewrite forallb_forall in Hall. apply list_elem_of_In in Hin.
  by apply Hall, bool_decide_eq_true in Hin.
Qed.

(** After an update of the rows the ports resolve to, each port resolves
    to its old row with [f] applied to its [external_ids]. *)
Lemma resolve_after_update db ifaces f iface r :
  iface ∈ ifaces → resolve db iface = Some r →
  resolve (update_rows (resolved_uuids db ifaces) f db) iface
  = Some (set_ids f r).
Proof.
  intros Hin Hr. rewrite resolve_update_rows, Hr. simpl.
  by rewrite (resolved_uuid_listed _ _ _ _ Hin Hr).
Qed.

Lemma evpn_external_ids_vni bgpvpn :
  evpn_external_ids bgp_as bgpvpn !! OVN_EVPN_VNI_EXT_ID_KEY
  = Some (py_str (dict_get bgpvpn "vni")).
Proof.
  unfold evpn_external_ids.
  rewrite lookup_insert_ne by done. apply lookup_insert_eq.
Qed.

Lemma evpn_external_ids_as bgpvpn :
  evpn_external_ids bgp_as bgpvpn !! OVN_EVPN_AS_EXT_ID_KEY
  = Some (py_str bgp_as).
Proof. unfold evpn_external_ids. apply lookup_insert_eq. Qed.

(** *** [delete_router_assoc] *)

Lemma delete_router_assoc_ok info ctx ra rid db :
  info_context info = Some ctx →
  info_router_association info = Some ra →
  ra !! "router_id" = Some rid →
  all_resolve db (router_ports ctx rid) = true →
  delete_router_assoc info db
  = (Ok (), update_rows (resolved_uuids db (router_ports ctx rid))
              (delete OVN_EVPN_VNI_EXT_ID_KEY) db).
Proof.
  intros Hc Hra Hrid Hall. unfold helper.delete_router_assoc.
  rewrite Hc, Hra, !bind_item_some, bind_dict_item, Hrid.
  rewrite bind_run, (mapM_resolve _ _ Hall).
  rewrite _execute_commands_transaction. unfold transaction.
  rewrite (run_commands_update _ (delete OVN_EVPN_VNI_EXT_ID_KEY)).
  - done.
  - intros u d. apply run_db_remove.
  - intros ids. apply delete_twice.
  - apply resolved_have_rows.
Qed.

(** *** [add_router_interface] *)

Lemma add_router_interface_ok info port bgpvpn r db :
  info_port_id info = Some port →
  info_bgpvpn info = Some bgpvpn →
  resolve_name db port = Some r →
  add_router_interface info db
  = (Ok (), update_row (lsp_uuid r)
              (λ ids, evpn_external_ids bgp_as bgpvpn ∪ ids) db).
Proof.
  intros Hp Hb Hr. unfold helper.add_router_interface.
  rewrite Hp, Hb, !bind_item_some, bind_run, (lsp_get_named _ _ _ Hr).
  unfold execute, transaction, run_commands.
  by rewrite run_db_set by by eapply resolve_name_has_row.
Qed.

Lemma resolve_name_update_row u f db port r :
  resolve_name db port = Some r →
  resolve_name (update_row u f db) port
  = Some (if (lsp_uuid r =? u)%N then set_ids f r else r).
Proof.
  intros Hr. rewrite update_row_eq, resolve_name_map, Hr; [done|].
  intros x. by destruct (lsp_uuid x =? u)%N.
Qed.

(** *** Properties of the handlers *)

(** C2. When the directory lookup for the association's router (device_id =
    its router_id, device_owner among the router port owners) returns N
    ports, each with a row in the store, [create_router_assoc] succeeds;
    its effect is that of one transaction of N set commands, one per port;
    afterwards each of the N ports carries ['neutron_bgpvpn:vni'] with
    [str] of the bgpvpn's vni and ['neutron_bgpvpn:as'] with [str] of the
    configured [bgp_as]. *)
Theorem create_router_assoc_annotates_ports info ctx ra bgpvpn rid db :
  info_context info = Some ctx →
  info_router_association info = Some ra →
  info_bgpvpn info = Some bgpvpn →
  ra !! "router_id" = Some rid →
  all_resolve db (router_ports ctx rid) = true →
  ∃ port_ids db',
    length port_ids = length (router_ports ctx rid) ∧
    create_router_assoc info db = (Ok (), db') ∧
    transaction
      (map (λ port_id,
              db_set "Logical_Switch_Port" port_id
                ("external_ids",
                 <[OVN_EVPN_AS_EXT_ID_KEY := py_str bgp_as]>
                   (<[OVN_EVPN_VNI_EXT_ID_KEY := py_str (dict_get bgpvpn "vni")]> ∅)))
           port_ids) db = (Ok (), db') ∧
    ∀ iface, iface ∈ router_ports ctx rid →
      carries db' iface OVN_EVPN_VNI_EXT_ID_KEY (py_str (dict_get bgpvpn "vni")) ∧
      carries db' iface OVN_EVPN_AS_EXT_ID_KEY (py_str bgp_as).
Proof.
  intros Hc Hra Hb Hrid Hall.
  exists (resolved_uuids db (router_ports ctx rid)). eexists.
  split; [by apply resolved_uuids_length|].
  split; [by eapply create_router_assoc_ok|].
  split.
  - unfold transaction.
    rewrite (run_commands_update _
               (λ ids, evpn_external_ids bgp_as bgpvpn ∪ ids)); [done|..].
    + intros u d. apply run_db_set.
    + intros ids. apply union_twice.
    + apply resolved_have_rows.
  - intros iface Hin.
    destruct (all_resolve_elem _ _ _ Hall Hin) as [r Hr].
    split; exists (set_ids (λ ids, evpn_external_ids bgp_as bgpvpn ∪ ids) r);
      (split; [by apply resolve_after_update|]); simpl;
      apply lookup_union_Some_l.
    + apply evpn_external_ids_vni.
    + apply evpn_external_ids_as.
Qed.

(** C3. When every port of the router has a row in the store,
    [delete_router_assoc] succeeds and, in the row of each port, removes
    the key ['neutron_bgpvpn:vni'] from [external_ids] and leaves every
    other key, ['neutron_bgpvpn:as'] among them, as it was. *)
Theorem delete_router_assoc_removes_only_vni info ctx ra rid db :
  info_context info = Some ctx →
  info_router_association info = Some ra →
  ra !! "router_id" = Some rid →
  all_resolve db (router_ports ctx rid) = true →
  ∃ db',
    delete_router_assoc info db = (Ok (), db') ∧
    ∀ iface row, iface ∈ router_ports ctx rid → resolve db iface = Some row →
      ∃ row',
        resolve db' iface = Some row' ∧
        lsp_uuid row' = lsp_uuid row ∧
        lsp_external_ids row' !! OVN_EVPN_VNI_EXT_ID_KEY = None ∧
        (∀ k, k ≠ OVN_EVPN_VNI_EXT_ID_KEY →
              lsp_external_ids row' !! k = lsp_external_ids row !! k) ∧
        lsp_external_ids row' !! OVN_EVPN_AS_EXT_ID_KEY
        = lsp_external_ids row !! OVN_EVPN_AS_EXT_ID_KEY.
Proof.
  intros Hc Hra Hrid Hall. eexists.
  split; [by eapply delete_router_assoc_ok|].
  intros iface row Hin Hr.
  exists (set_ids (delete OVN_EVPN_VNI_EXT_ID_KEY) row).
  split; [by apply resolve_after_update|]. simpl.
  split; [done|]. split; [apply lookup_delete_eq|].
  split; [|by apply lookup_delete_ne].
  intros k Hk. by apply lookup_delete_ne.
Qed.

(** C7. [create_router_assoc] is idempotent: run a second time on the same
    request, directory and configuration, it returns what the first run
    returned and leaves the store as the first run left it. *)
Theorem create_router_assoc_idempotent info db :
  create_router_assoc info (create_router_assoc info db).2
  = create_router_assoc info db.
Proof.
  destruct (create_router_assoc info db) as [r db1] eqn:E. simpl.
  destruct (create_router_assoc_inv _ _ _ _ E)
    as [(e & -> & ->)|(ctx & ra & bgpvpn & rid & Hc & Hra & Hb & Hrid & Hall)];
    [done|].
  rewrite (create_router_assoc_ok _ _ _ _ _ _ Hc Hra Hb Hrid Hall) in E.
  injection E as <- <-.
  rewrite (create_router_assoc_ok _ _ _ _ _ _ Hc Hra Hb Hrid).
  - rewrite resolved_uuids_update_rows, update_rows_idemp; [done|].
    intros ids. apply union_twice.
  - by rewrite all_resolve_update_rows.
Qed.

(** C10. Neither setter checks that the bgpvpn has a vni: when the key
    ['vni'] is missing or [None], [create_router_assoc] and
    [add_router_interface] still succeed and write the text [None] under
    ['neutron_bgpvpn:vni']. *)
Theorem missing_vni_is_written_as_None
    bgpvpn info ctx ra rid db info' port row :
  bgpvpn !! "vni" = None ∨ bgpvpn !! "vni" = Some PNone →
  info_context info = Some ctx →
  info_router_association info = Some ra →
  info_bgpvpn info = Some bgpvpn →
  ra !! "router_id" = Some rid →
  all_resolve db (router_ports ctx rid) = true →
  info_port_id info' = Some port →
  info_bgpvpn info' = Some bgpvpn →
  resolve_name db port = Some row →
  (∃ db1,
      create_router_assoc info db = (Ok (), db1) ∧
      ∀ iface, iface ∈ router_ports ctx rid →
        carries db1 iface OVN_EVPN_VNI_EXT_ID_KEY "None") ∧
  (∃ db2 row',
      add_router_interface info' db = (Ok (), db2) ∧
      resolve_name db2 port = Some row' ∧
      lsp_external_ids row' !! OVN_EVPN_VNI_EXT_ID_KEY = Some "None").
Proof.
  intros Hvni Hc Hra Hb Hrid Hall Hp Hb' Hrow.
  assert (py_str (dict_get bgpvpn "vni") = "None") as Hnone.
  { unfold dict_get. by destruct Hvni as [-> | ->]. }
  split.
  - eexists. split; [by eapply create_router_assoc_ok|].
    intros iface Hin.
    destruct (all_resolve_elem _ _ _ Hall Hin) as [r Hr].
    exists (set_ids (λ ids, evpn_external_ids bgp_as bgpvpn ∪ ids) r).
    split; [by apply resolve_after_update|]. simpl.
    apply lookup_union_Some_l. by rewrite evpn_external_ids_vni, Hnone.
  - eexists. eexists.
    split; [by eapply add_router_interface_ok|].
    split; [by apply resolve_name_update_row|].
    rewrite N.eqb_refl. simpl.
    apply lookup_union_Some_l. by rewrite evpn_external_ids_vni, Hnone.
Qed.

End HandlerFacts.

(** ** The worker loop *)

Section WorkerFacts.

Variable get_ports : context → port_filters → list dict.
Variable ROUTER_PORT_OWNERS : list string.
Variable bgp_as : pyval.

Local Abbreviation dispatch := (dispatch get_ports ROUTER_PORT_OWNERS bgp_as).
Local Abbreviation iteration := (iteration get_ports ROUTER_PORT_OWNERS bgp_as).
Local Abbreviation run_loop := (run_loop get_ports ROUTER_PORT_OWNERS bgp_as).
Local Abbreviation _request_handler :=
  (_request_handler get_ports ROUTER_PORT_OWNERS bgp_as).
Local Abbreviation shutdown := (shutdown get_ports ROUTER_PORT_OWNERS bgp_as).
Local Abbreviation run := (run get_ports ROUTER_PORT_OWNERS bgp_as).
Local Abbreviation in_order := (in_order get_ports ROUTER_PORT_OWNERS bgp_as).
Local Abbreviation func_maps :=
  (_bgpvpn_request_func_maps get_ports ROUTER_PORT_OWNERS bgp_as).

#[local] Arguments helper.dispatch : simpl never.

Lemma is_command_eqb r :
  is_command r = true → String.eqb (req_type r) REQ_TYPE_EXIT = false.
Proof. unfold is_command. by destruct (String.eqb _ _). Qed.

Lemma puts_cons_put req schedule : puts (Put req :: schedule) = req :: puts schedule.
Proof. reflexivity. Qed.

Lemma puts_cons_work schedule : puts (Work :: schedule) = puts schedule.
Proof. reflexivity. Qed.

Lemma in_order_cons r rs db :
  in_order (r :: rs) db
  = (Processed r (dispatch r db).1 :: (in_order rs (dispatch r db).2).1,
     (in_order rs (dispatch r db).2).2).
Proof.
  simpl. destruct (dispatch r db) as [o db']. simpl.
  by destruct (in_order rs db') as [evs db''].
Qed.

Lemma in_order_app rs1 rs2 db :
  in_order (rs1 ++ rs2) db
  = ((in_order rs1 db).1 ++ (in_order rs2 (in_order rs1 db).2).1,
     (in_order rs2 (in_order rs1 db).2).2).
Proof.
  revert db. induction rs1 as [|r rs1 IH]; intros db.
  - simpl. by destruct (in_order rs2 db).
  - rewrite <- app_comm_cons, !in_order_cons, IH. done.
Qed.

Lemma run_put req schedule h :
  run (Put req :: schedule) h = run schedule (add_request req h).
Proof. reflexivity. Qed.

Lemma run_work schedule h :
  run (Work :: schedule) h = run schedule (iteration h).
Proof. reflexivity. Qed.

(** The worker thread, once ended, does nothing more. *)
Lemma run_work_ended n h :
  _helper_thread_alive h = false → run (replicate n Work) h = h.
Proof.
  intros Hd. induction n as [|n IH]; [done|].
  simpl replicate. rewrite run_work.
  unfold helper.iteration. by rewrite Hd.
Qed.

Lemma run_loop_passes q h :
  _helper_thread_alive h = true →
  _requests h = q →
  run (replicate (length q) Work) h
  = {| _requests := (run_loop q (ovn_nbdb h)).1.1.1;
       _helper_thread_alive := (run_loop q (ovn_nbdb h)).1.1.2;
       ovn_nbdb := (run_loop q (ovn_nbdb h)).1.2;
       ovn_nbdb_started := ovn_nbdb_started h;
       history := history h ++ (run_loop q (ovn_nbdb h)).2 |}.
Proof.
  revert h. induction q as [|r rest IH]; intros h Ha Hq.
  - destruct h; simpl in *; subst. by rewrite app_nil_r.
  - simpl replicate. rewrite run_work. unfold helper.iteration.
    rewrite Ha, Hq. simpl.
    destruct (String.eqb (req_type r) REQ_TYPE_EXIT).
    + by rewrite run_work_ended.
    + destruct (dispatch r (ovn_nbdb h)) as [o db'].
      rewrite IH by done. simpl.
      destruct (run_loop rest db') as [[[q' a] db''] evs]. simpl.
      by rewrite <- app_assoc.
Qed.

(** The loop is the worker's passes one after the other: on a queue of [n]
    requests it has ended or is blocked in [get] after [n] passes. *)
Lemma _request_handler_passes h :
  _request_handler h = run (replicate (length (_requests h)) Work) h.
Proof.
  unfold helper._request_handler.
  destruct (_helper_thread_alive h) eqn:Ha.
  - rewrite (run_loop_passes (_requests h)) by done.
    by destruct (run_loop (_requests h) (ovn_nbdb h)) as [[[q a] db] evs].
  - by rewrite run_work_ended.
Qed.

(** One pass on a command at the head of the queue. *)
Lemma iteration_command h r rest :
  _helper_thread_alive h = true →
  _requests h = r :: rest →
  is_command r = true →
  iteration h
  = {| _requests := rest; _helper_thread_alive := true;
       ovn_nbdb := (dispatch r (ovn_nbdb h)).2;
       ovn_nbdb_started := ovn_nbdb_started h;
       history := history h ++ [Processed r (dispatch r (ovn_nbdb h)).1] |}.
Proof.
  intros Ha Hq Hr. unfold helper.iteration.
  rewrite Ha, Hq, (is_command_eqb _ Hr).
  by destruct (dispatch r (ovn_nbdb h)).
Qed.

(** The loop on a queue of commands handles them all in order and then
    blocks on the empty queue. *)
Lemma run_loop_commands q db :
  forallb is_command q = true →
  run_loop q db = ([], true, (in_order q db).2, (in_order q db).1).
Proof.
  revert db. induction q as [|r q IH]; intros db; [done|].
  intros [Hr Hq]%andb_true_iff. rewrite in_order_cons. simpl.
  rewrite (is_command_eqb _ Hr).
  destruct (dispatch r db) as [o db']. by rewrite (IH _ Hq).
Qed.

(** The loop on commands followed by an exit request handles the commands
    in order and ends at the exit request; what follows stays queued. *)
Lemma run_loop_until_exit q x rest db :
  forallb is_command q = true →
  is_command x = false →
  run_loop (q ++ x :: rest) db
  = (rest, false, (in_order q db).2, (in_order q db).1 ++ [Exited]).
Proof.
  intros Hq Hx. revert db Hq. induction q as [|r q IH]; intros db.
  - intros _. simpl. unfold is_command in Hx.
    by destruct (String.eqb (req_type x) REQ_TYPE_EXIT).
  - intros [Hr Hq]%andb_true_iff. rewrite in_order_cons. simpl.
    rewrite (is_command_eqb _ Hr).
    destruct (dispatch r db) as [o db']. by rewrite (IH _ Hq).
Qed.

(** Whatever the interleaving of puts and passes of the worker, what was
    put is what was handled followed by what is still queued, and the
    worker's effects are those of handling that prefix in order. *)
Lemma run_invariant schedule h0 :
  _helper_thread_alive h0 = true →
  forallb is_command (_requests h0 ++ puts schedule) = true →
  _helper_thread_alive (run schedule h0) = true ∧
  ovn_nbdb_started (run schedule h0) = ovn_nbdb_started h0 ∧
  ∃ handled,
    _requests h0 ++ puts schedule = handled ++ _requests (run schedule h0) ∧
    history (run schedule h0)
    = history h0 ++ (in_order handled (ovn_nbdb h0)).1 ∧
    ovn_nbdb (run schedule h0) = (in_order handled (ovn_nbdb h0)).2.
Proof.
  revert h0. induction schedule as [|a schedule IH]; intros h0 Ha Hall.
  - repeat split; [done|]. exists []. simpl. by rewrite !app_nil_r.
  - destruct a as [req|].
    + rewrite puts_cons_put in Hall |- *. rewrite run_put.
      destruct (IH (add_request req h0)) as (Ha' & Hs & handled & Hq & Hh & Hdb);
        [done|by simpl; rewrite <- app_assoc|].
      repeat split; [done..|]. exists handled.
      simpl in Hq. rewrite <- app_assoc in Hq. done.
    + rewrite puts_cons_work in Hall |- *. rewrite run_work.
      destruct (_requests h0) as [|r rest] eqn:Hq0.
      * assert (iteration h0 = h0) as ->.
        { unfold helper.iteration. by rewrite Ha, Hq0. }
        specialize (IH h0 Ha). rewrite Hq0 in IH. by apply IH.
      * simpl in Hall. apply andb_true_iff in Hall as [Hr Hall].
        rewrite (iteration_command _ _ _ Ha Hq0 Hr).
        match goal with |- context [run schedule ?h] => set (h1 := h) end.
        destruct (IH h1) as (Ha' & Hs & handled & Hq & Hh & Hdb); [done..|].
        repeat split; [done..|]. exists (r :: handled).
        rewrite in_order_cons. simpl. simpl in Hq, Hh, Hdb.
        rewrite Hq, Hh, Hdb, <- app_assoc. done.
Qed.

(** A request type outside the table has no handler. *)
Lemma func_maps_unknown t :
  t ≠ REQ_TYPE_CREATE_ROUTER_ASSOC →
  t ≠ REQ_TYPE_DELETE_ROUTER_ASSOC →
  t ≠ REQ_TYPE_ADD_ROUTER_INTERFACE →
  func_maps !! t = None.
Proof.
  intros H1 H2 H3. unfold _bgpvpn_request_func_maps, _init_bgpvpn_actions.
  by rewrite !lookup_insert_ne, lookup_empty.
Qed.

Lemma _request_handler_commands h :
  _helper_thread_alive h = true →
  forallb is_command (_requests h) = true →
  _request_handler h
  = {| _requests := []; _helper_thread_alive := true;
       ovn_nbdb := (in_order (_requests h) (ovn_nbdb h)).2;
       ovn_nbdb_started := ovn_nbdb_started h;
       history := history h ++ (in_order (_requests h) (ovn_nbdb h)).1 |}.
Proof.
  intros Ha Hq. unfold helper._request_handler.
  by rewrite Ha, (run_loop_commands _ _ Hq).
Qed.

(** *** Properties of the worker *)

(** C1. Whatever the interleaving of the producers' puts with the worker's
    passes through its loop, the commands put are handled in the order of
    the puts, one at a time, each on the database the one before it left:
    at any moment what was handled is a prefix of what was put and the rest
    is queued in order; once the worker has caught up, all of them have been
    handled in that order. *)
Theorem fifo_single_consumer schedule db :
  forallb is_command (puts schedule) = true →
  (∃ handled,
      puts schedule = handled ++ _requests (run schedule (new_helper db)) ∧
      (history (run schedule (new_helper db)),
       ovn_nbdb (run schedule (new_helper db))) = in_order handled db) ∧
  _requests (_request_handler (run schedule (new_helper db))) = [] ∧
  (history (_request_handler (run schedule (new_helper db))),
   ovn_nbdb (_request_handler (run schedule (new_helper db))))
  = in_order (puts schedule) db.
Proof.
  intros Hall.
  destruct (run_invariant schedule (new_helper db))
    as (Ha & _ & handled & Hq & Hh & Hdb); [done..|].
  simpl in Hq, Hh, Hdb. split.
  - exists handled. split; [done|].
    rewrite Hh, Hdb. by destruct (in_order handled db).
  - rewrite _request_handler_commands; [|done|].
    + simpl. split; [done|].
      rewrite Hq, in_order_app, Hh, Hdb. done.
    + rewrite Hq, forallb_app in Hall.
      by apply andb_true_iff in Hall as [_ ?].
Qed.

(** C4. When the handler of command B raises, the worker catches the
    exception in its loop and logs it, stays alive, and on its next pass
    takes command C and dispatches it; a pass ends the thread only on an
    exit request. *)
Theorem handler_exception_is_caught
    h B C rest (handler : request_info → M unit) info e db' :
  _helper_thread_alive h = true →
  _requests h = B :: C :: rest →
  is_command B = true →
  is_command C = true →
  func_maps !! req_type B = Some handler →
  req_info B = Some info →
  handler info (ovn_nbdb h) = (Raise e, db') →
  (_helper_thread_alive (iteration h) = true ∧
   _requests (iteration h) = C :: rest ∧
   history (iteration h) = history h ++ [Processed B (Logged e)]) ∧
  (_helper_thread_alive (iteration (iteration h)) = true ∧
   _requests (iteration (iteration h)) = rest ∧
   history (iteration (iteration h))
   = history h ++ [Processed B (Logged e);
                   Processed C (dispatch C (ovn_nbdb (iteration h))).1] ∧
   ovn_nbdb (iteration (iteration h))
   = (dispatch C (ovn_nbdb (iteration h))).2) ∧
  (∀ h0, _helper_thread_alive h0 = true →
         _helper_thread_alive (iteration h0) = false
         ↔ ∃ x q, _requests h0 = x :: q ∧ req_type x = REQ_TYPE_EXIT).
Proof.
  intros Ha Hq HB HC Hf Hi He.
  assert (dispatch B (ovn_nbdb h) = (Logged e, db')) as HdB.
  { unfold helper.dispatch. rewrite Hf, Hi, bind_item_some. by rewrite He. }
  rewrite (iteration_command _ _ _ Ha Hq HB), HdB. simpl.
  split; [done|]. split.
  - rewrite (iteration_command _ C rest); [|done..]. simpl.
    by rewrite <- app_assoc.
  - intros h0 Ha0. unfold helper.iteration. rewrite Ha0.
    destruct (_requests h0) as [|x q].
    + rewrite Ha0. split; [done|]. by intros (? & ? & ? & _).
    + destruct (String.eqb (req_type x) REQ_TYPE_EXIT) eqn:Ex.
      * simpl. split; [|done]. intros _. exists x, q.
        by apply String.eqb_eq in Ex.
      * destruct (dispatch x (ovn_nbdb h0)). simpl.
        split; [done|]. intros (x' & q' & [= <- <-] & Hx).
        apply String.eqb_neq in Ex. done.
Qed.

(** C5. [shutdown] puts the exit request on the same queue and joins the
    worker before it stops the connection: every command put before the
    call is handled, in order, before the worker ends its loop, and the
    connection is stopped after that; [join] returns. *)
Theorem shutdown_drains_queue schedule db :
  forallb is_command (puts schedule) = true →
  ∃ h',
    shutdown (run schedule (new_helper db)) = Some h' ∧
    history h'
    = (in_order (puts schedule) db).1 ++ [Exited; ConnectionStopped] ∧
    ovn_nbdb h' = (in_order (puts schedule) db).2 ∧
    _requests h' = [] ∧
    _helper_thread_alive h' = false ∧
    ovn_nbdb_started h' = false.
Proof.
  intros Hall.
  destruct (run_invariant schedule (new_helper db))
    as (Ha & _ & handled & Hq & Hh & Hdb); [done..|].
  simpl in Hq, Hh, Hdb.
  assert (forallb is_command (_requests (run schedule (new_helper db))) = true)
    as Hrest.
  { rewrite Hq, forallb_app in Hall. by apply andb_true_iff in Hall as [_ ?]. }
  unfold helper.shutdown, helper._request_handler. simpl. rewrite Ha.
  rewrite (run_loop_until_exit _ exit_request []); [|done..]. simpl.
  eexists. split; [done|]. simpl.
  rewrite Hq, in_order_app, Hh, Hdb. simpl.
  by rewrite <- !app_assoc.
Qed.

(** C9. A dequeued request whose type is neither the exit type nor one of
    the three types of the table is dropped: no handler runs, nothing is
    logged, the store is as before, and the worker goes on with the rest
    of the queue. *)
Theorem unknown_request_type_is_discarded h r rest :
  _helper_thread_alive h = true →
  _requests h = r :: rest →
  req_type r ≠ REQ_TYPE_EXIT →
  req_type r ≠ REQ_TYPE_CREATE_ROUTER_ASSOC →
  req_type r ≠ REQ_TYPE_DELETE_ROUTER_ASSOC →
  req_type r ≠ REQ_TYPE_ADD_ROUTER_INTERFACE →
  func_maps !! req_type r = None ∧
  iteration h
  = {| _requests := rest; _helper_thread_alive := true;
       ovn_nbdb := ovn_nbdb h;
       ovn_nbdb_started := ovn_nbdb_started h;
       history := history h ++ [Processed r NoHandler] |}.
Proof.
  intros Ha Hq Hx H1 H2 H3.
  pose proof (func_maps_unknown _ H1 H2 H3) as Hnone.
  split; [done|].
  rewrite (iteration_command _ _ _ Ha Hq).
  - unfold helper.dispatch. by rewrite Hnone.
  - unfold is_command. by apply negb_true_iff, String.eqb_neq.
Qed.

End WorkerFacts.

(** ** The driver *)

Lemma py_in_supported v :
  py_in v OVN_SUPPORTED_BGPVPN_TYPES = true ↔ v = PStr "l3".
Proof.
  unfold py_in, OVN_SUPPORTED_BGPVPN_TYPES. simpl. rewrite orb_false_r.
  destruct v as [|b|n|s|l]; simpl; try by split.
  rewrite String.eqb_eq. split; congruence.
Qed.

(** When the precommit checks pass: none of the five attributes is true in
    Python's sense, and the type is ['l3']. *)
Lemma _common_precommit_checks_ok_iff bgpvpn :
  _common_precommit_checks bgpvpn = Ok () ↔
  truthy (dict_get bgpvpn "route_distinguishers") = false ∧
  truthy (dict_get bgpvpn "route_targets") = false ∧
  truthy (dict_get bgpvpn "import_targets") = false ∧
  truthy (dict_get bgpvpn "export_targets") = false ∧
  truthy (dict_get bgpvpn "local_pref") = false ∧
  dict_get bgpvpn "type" = PStr "l3".
Proof.
  unfold _common_precommit_checks. rewrite <- py_in_supported.
  destruct (truthy (dict_get bgpvpn "route_distinguishers"));
    [by split; [|intros (? & _)]|].
  destruct (truthy (dict_get bgpvpn "route_targets"));
    [by split; [|intros (_ & ? & _)]|].
  destruct (truthy (dict_get bgpvpn "import_targets"));
    [by split; [|intros (_ & _ & ? & _)]|].
  destruct (truthy (dict_get bgpvpn "export_targets"));
    [by split; [|intros (_ & _ & _ & ? & _)]|].
  destruct (truthy (dict_get bgpvpn "local_pref"));
    [by split; [|intros (_ & _ & _ & _ & ? & _)]|].
  destruct (py_in (dict_get bgpvpn "type") OVN_SUPPORTED_BGPVPN_TYPES); simpl.
  - done.
  - by split; [|intros (_ & _ & _ & _ & _ & ?)].
Qed.

(** The error raised names the first attribute, in the order of the checks,
    that is true in Python's sense. *)
Lemma _common_precommit_checks_local_pref bgpvpn :
  truthy (dict_get bgpvpn "route_distinguishers") = false →
  truthy (dict_get bgpvpn "route_targets") = false →
  truthy (dict_get bgpvpn "import_targets") = false →
  truthy (dict_get bgpvpn "export_targets") = false →
  truthy (dict_get bgpvpn "local_pref") = true →
  _common_precommit_checks bgpvpn
  = Raise (BGPVPNLocalPrefNotSupported OVN_DRIVER_NAME).
Proof.
  intros H1 H2 H3 H4 H5. unfold _common_precommit_checks.
  by rewrite H1, H2, H3, H4, H5.
Qed.

(** C6. A bgpvpn of type ['l3'] whose [local_pref] is set to [0] passes the
    precommit checks of create and of update: [0] is false in Python's
    sense, so the test on [local_pref] does not fire, although the
    attribute is set and the driver does not support it. *)
Theorem precommit_accepts_local_pref_zero ctx old_bgpvpn h :
  sample.bgpvpn_local_pref_0 !! "local_pref" = Some (PInt 0) ∧
  _common_precommit_checks sample.bgpvpn_local_pref_0 = Ok () ∧
  create_bgpvpn_precommit ctx sample.bgpvpn_local_pref_0 h = (Ok (), h) ∧
  update_bgpvpn_precommit ctx old_bgpvpn sample.bgpvpn_local_pref_0 h
  = (Ok (), h).
Proof. by vm_compute. Qed.

Section DriverFacts.

Variable get_bgpvpns : context → bgpvpn_filters → result (list dict).

Local Abbreviation registry_router_interface_created :=
  (registry_router_interface_created get_bgpvpns).

(** C8. For a router-interface notification that carries its port: when
    the lookup of the router's BGPVPNs returns the empty list, the callback
    returns with the helper as it was, queue and store; when it returns at
    least one BGPVPN, the callback puts exactly one [add_router_interface]
    request, with the id of the new port and the first BGPVPN of the
    lookup. *)
Theorem router_interface_created_enqueues payload port h :
  payload_metadata payload !! "port" = Some port →
  match get_bgpvpns (payload_context payload)
          {| routers := [payload_resource_id payload] |} with
  | Ok [] => registry_router_interface_created payload h = (None, h)
  | Ok (bgpvpn0 :: _) =>
      registry_router_interface_created payload h
      = (None,
         add_request
           {| req_type := REQ_TYPE_ADD_ROUTER_INTERFACE;
              req_info := Some {| info_context := None;
                                  info_router_association := None;
                                  info_bgpvpn := Some bgpvpn0;
                                  info_port_id := Some (dict_get port "id") |} |}
           h)
  | Raise e => registry_router_interface_created payload h = (Some e, h)
  end.
Proof.
  intros Hport.
  unfold ovn.registry_router_interface_created, router_interface_created_body.
  rewrite Hport.
  by destruct (get_bgpvpns _ _) as [[|bgpvpn0 bgpvpns]|e].
Qed.

End DriverFacts.

(** ** The theorems at the sample data *)

Local Abbreviation s_create_router_assoc :=
  (create_router_assoc sample.get_ports sample.ROUTER_PORT_OWNERS sample.bgp_as).
Local Abbreviation s_delete_router_assoc :=
  (delete_router_assoc sample.get_ports sample.ROUTER_PORT_OWNERS).
Local Abbreviation s_add_router_interface :=
  (add_router_interface sample.bgp_as).
Local Abbreviation s_router_ports :=
  (sample.get_ports sample.ctx
     (router_port_filters sample.ROUTER_PORT_OWNERS (PStr "router-1"))).
Local Abbreviation s_run :=
  (run sample.get_ports sample.ROUTER_PORT_OWNERS sample.bgp_as).
Local Abbreviation s_iteration :=
  (iteration sample.get_ports sample.ROUTER_PORT_OWNERS sample.bgp_as).
Local Abbreviation s_request_handler :=
  (_request_handler sample.get_ports sample.ROUTER_PORT_OWNERS sample.bgp_as).
Local Abbreviation s_in_order :=
  (in_order sample.get_ports sample.ROUTER_PORT_OWNERS sample.bgp_as).
Local Abbreviation s_dispatch :=
  (dispatch sample.get_ports sample.ROUTER_PORT_OWNERS sample.bgp_as).
Local Abbreviation s_shutdown :=
  (shutdown sample.get_ports sample.ROUTER_PORT_OWNERS sample.bgp_as).

Lemma fifo_single_consumer_witness :
  (∃ handled,
      puts sample.schedule
      = handled ++ _requests (s_run sample.schedule (new_helper sample.db0)) ∧
      (history (s_run sample.schedule (new_helper sample.db0)),
       ovn_nbdb (s_run sample.schedule (new_helper sample.db0)))
      = s_in_order handled sample.db0) ∧
  _requests (s_request_handler
               (s_run sample.schedule (new_helper sample.db0))) = [] ∧
  (history (s_request_handler
              (s_run sample.schedule (new_helper sample.db0))),
   ovn_nbdb (s_request_handler
               (s_run sample.schedule (new_helper sample.db0))))
  = s_in_order (puts sample.schedule) sample.db0.
Proof.
  apply (fifo_single_consumer sample.get_ports sample.ROUTER_PORT_OWNERS
           sample.bgp_as sample.schedule sample.db0).
  reflexivity.
Defined.

Lemma create_router_assoc_annotates_ports_witness :
  ∃ port_ids db',
    length port_ids = length s_router_ports ∧
    s_create_router_assoc
      (sample.info_assoc sample.router_assoc1 sample.bgpvpn1) sample.db0
    = (Ok (), db') ∧
    transaction
      (map (λ port_id,
              db_set "Logical_Switch_Port" port_id
                ("external_ids",
                 <[OVN_EVPN_AS_EXT_ID_KEY := py_str sample.bgp_as]>
                   (<[OVN_EVPN_VNI_EXT_ID_KEY :=
                        py_str (dict_get sample.bgpvpn1 "vni")]> ∅)))
           port_ids) sample.db0 = (Ok (), db') ∧
    ∀ iface, iface ∈ s_router_ports →
      carries db' iface OVN_EVPN_VNI_EXT_ID_KEY
        (py_str (dict_get sample.bgpvpn1 "vni")) ∧
      carries db' iface OVN_EVPN_AS_EXT_ID_KEY (py_str sample.bgp_as).
Proof.
  apply (create_router_assoc_annotates_ports
           sample.get_ports sample.ROUTER_PORT_OWNERS sample.bgp_as
           (sample.info_assoc sample.router_assoc1 sample.bgpvpn1)
           sample.ctx sample.router_assoc1 sample.bgpvpn1 (PStr "router-1")
           sample.db0); reflexivity.
Defined.

Lemma delete_router_assoc_removes_only_vni_witness :
  ∃ db',
    s_delete_router_assoc
      (sample.info_assoc sample.router_assoc1 sample.bgpvpn1) sample.db0
    = (Ok (), db') ∧
    ∀ iface row, iface ∈ s_router_ports → resolve sample.db0 iface = Some row →
      ∃ row',
        resolve db' iface = Some row' ∧
        lsp_uuid row' = lsp_uuid row ∧
        lsp_external_ids row' !! OVN_EVPN_VNI_EXT_ID_KEY = None ∧
        (∀ k, k ≠ OVN_EVPN_VNI_EXT_ID_KEY →
              lsp_external_ids row' !! k = lsp_external_ids row !! k) ∧
        lsp_external_ids row' !! OVN_EVPN_AS_EXT_ID_KEY
        = lsp_external_ids row !! OVN_EVPN_AS_EXT_ID_KEY.
Proof.
  apply (delete_router_assoc_removes_only_vni
           sample.get_ports sample.ROUTER_PORT_OWNERS
           (sample.info_assoc sample.router_assoc1 sample.bgpvpn1)
           sample.ctx sample.router_assoc1 (PStr "router-1") sample.db0);
    reflexivity.
Defined.

Lemma missing_vni_is_written_as_None_witness :
  (∃ db1,
      s_create_router_assoc
        (sample.info_assoc sample.router_assoc1 sample.bgpvpn_no_vni)
        sample.db0 = (Ok (), db1) ∧
      ∀ iface, iface ∈ s_router_ports →
        carries db1 iface OVN_EVPN_VNI_EXT_ID_KEY "None") ∧
  (∃ db2 row',
      s_add_router_interface
        (sample.info_interface (PStr "port-3") sample.bgpvpn_no_vni)
        sample.db0 = (Ok (), db2) ∧
      resolve_name db2 (PStr "port-3") = Some row' ∧
      lsp_external_ids row' !! OVN_EVPN_VNI_EXT_ID_KEY = Some "None").
Proof.
  apply (missing_vni_is_written_as_None
           sample.get_ports sample.ROUTER_PORT_OWNERS sample.bgp_as
           sample.bgpvpn_no_vni
           (sample.info_assoc sample.router_assoc1 sample.bgpvpn_no_vni)
           sample.ctx sample.router_assoc1 (PStr "router-1") sample.db0
           (sample.info_interface (PStr "port-3") sample.bgpvpn_no_vni)
           (PStr "port-3")
           {| lsp_uuid := 3; lsp_name := "port-3"; lsp_external_ids := ∅ |});
    try reflexivity.
  left. reflexivity.
Defined.

Lemma handler_exception_is_caught_witness :
  (_helper_thread_alive (s_iteration sample.helper_failing) = true ∧
   _requests (s_iteration sample.helper_failing) = [sample.req_interface] ∧
   history (s_iteration sample.helper_failing)
   = history sample.helper_failing
     ++ [Processed sample.req_create9
           (Logged (RowNotFound "Logical_Switch_Port" "port-9"))]) ∧
  (_helper_thread_alive (s_iteration (s_iteration sample.helper_failing)) = true ∧
   _requests (s_iteration (s_iteration sample.helper_failing)) = [] ∧
   history (s_iteration (s_iteration sample.helper_failing))
   = history sample.helper_failing
     ++ [Processed sample.req_create9
           (Logged (RowNotFound "Logical_Switch_Port" "port-9"));
         Processed sample.req_interface
           (s_dispatch sample.req_interface
              (ovn_nbdb (s_iteration sample.helper_failing))).1] ∧
   ovn_nbdb (s_iteration (s_iteration sample.helper_failing))
   = (s_dispatch sample.req_interface
        (ovn_nbdb (s_iteration sample.helper_failing))).2) ∧
  (∀ h0, _helper_thread_alive h0 = true →
         _helper_thread_alive (s_iteration h0) = false
         ↔ ∃ x q, _requests h0 = x :: q ∧ req_type x = REQ_TYPE_EXIT).
Proof.
  apply (handler_exception_is_caught
           sample.get_ports sample.ROUTER_PORT_OWNERS sample.bgp_as
           sample.helper_failing sample.req_create9 sample.req_interface []
           s_create_router_assoc
           (sample.info_assoc sample.router_assoc9 sample.bgpvpn1)
           (RowNotFound "Logical_Switch_Port" "port-9") sample.db0);
    reflexivity.
Defined.

Lemma shutdown_drains_queue_witness :
  ∃ h',
    s_shutdown (s_run sample.schedule (new_helper sample.db0)) = Some h' ∧
    history h'
    = (s_in_order (puts sample.schedule) sample.db0).1
      ++ [Exited; ConnectionStopped] ∧
    ovn_nbdb h' = (s_in_order (puts sample.schedule) sample.db0).2 ∧
    _requests h' = [] ∧
    _helper_thread_alive h' = false ∧
    ovn_nbdb_started h' = false.
Proof.
  apply (shutdown_drains_queue sample.get_ports sample.ROUTER_PORT_OWNERS
           sample.bgp_as sample.schedule sample.db0).
  reflexivity.
Defined.

Lemma unknown_request_type_is_discarded_witness :
  _bgpvpn_request_func_maps sample.get_ports sample.ROUTER_PORT_OWNERS
    sample.bgp_as !! req_type sample.req_unknown = None ∧
  s_iteration sample.helper_unknown
  = {| _requests := [sample.req_create]; _helper_thread_alive := true;
       ovn_nbdb := ovn_nbdb sample.helper_unknown;
       ovn_nbdb_started := ovn_nbdb_started sample.helper_unknown;
       history := history sample.helper_unknown
                  ++ [Processed sample.req_unknown NoHandler] |}.
Proof.
  apply (unknown_request_type_is_discarded
           sample.get_ports sample.ROUTER_PORT_OWNERS sample.bgp_as
           sample.helper_unknown sample.req_unknown [sample.req_create]);
    first [reflexivity | discriminate].
Defined.

Lemma router_interface_created_enqueues_witness :
  registry_router_interface_created sample.get_bgpvpns
    (sample.payload "router-1") (new_helper sample.db0)
  = (None,
     add_request
       {| req_type := REQ_TYPE_ADD_ROUTER_INTERFACE;
          req_info := Some {| info_context := None;
                              info_router_association := None;
                              info_bgpvpn := Some sample.bgpvpn1;
                              info_port_id := Some (PStr "port-1") |} |}
       (new_helper sample.db0)) ∧
  registry_router_interface_created sample.get_bgpvpns
    (sample.payload "router-2") (new_helper sample.db0)
  = (None, new_helper sample.db0).
Proof.
  split.
  - apply (router_interface_created_enqueues sample.get_bgpvpns
             (sample.payload "router-1") sample.port1 (new_helper sample.db0)).
    reflexivity.
  - apply (router_interface_created_enqueues sample.get_bgpvpns
             (sample.payload "router-2") sample.port1 (new_helper sample.db0)).
    reflexivity.
Defined.

(** * Further properties *)

(** ** The store's invariant *)

Lemma keeps_ports_refl db : keeps_ports db db.
Proof. unfold keeps_ports. induction db; constructor; auto. Qed.

Lemma keeps_ports_trans db1 db2 db3 :
  keeps_ports db1 db2 → keeps_ports db2 db3 → keeps_ports db1 db3.
Proof.
  unfold keeps_ports. intros H12. revert db3.
  induction H12 as [|r1 r2 l1 l2 (Hu & Hn & Hk) _ IH]; intros db3 H23.
  - by inversion H23.
  - inversion H23 as [|? r3 ? l3 (Hu' & Hn' & Hk') H23']; subst.
    constructor; [|by apply IH].
    split; [congruence|]. split; [congruence|].
    intros k H1 H2. by rewrite Hk', Hk.
Qed.

Lemma keeps_ports_map g db :
  (∀ r, lsp_uuid (g r) = lsp_uuid r ∧ lsp_name (g r) = lsp_name r ∧
        ∀ k, k ≠ OVN_EVPN_VNI_EXT_ID_KEY → k ≠ OVN_EVPN_AS_EXT_ID_KEY →
             lsp_external_ids (g r) !! k = lsp_external_ids r !! k) →
  keeps_ports db (map g db).
Proof. intros Hg. unfold keeps_ports. induction db; constructor; auto. Qed.

Lemma keeps_ports_update_rows us f db :
  own_keys_only f → keeps_ports db (update_rows us f db).
Proof.
  intros Hf. apply keeps_ports_map. intros r.
  destruct (existsb _ us); simpl; auto.
Qed.

Lemma keeps_ports_update_row u f db :
  own_keys_only f → keeps_ports db (update_row u f db).
Proof.
  intros Hf. rewrite update_row_eq. apply keeps_ports_map. intros r.
  destruct (lsp_uuid r =? u)%N; simpl; auto.
Qed.

Lemma own_keys_only_delete : own_keys_only (delete OVN_EVPN_VNI_EXT_ID_KEY).
Proof. intros ids k Hk _. by apply lookup_delete_ne. Qed.

Lemma own_keys_only_union (v : gmap string string) :
  (∀ k, is_Some (v !! k) →
        k = OVN_EVPN_VNI_EXT_ID_KEY ∨ k = OVN_EVPN_AS_EXT_ID_KEY) →
  own_keys_only (λ ids, v ∪ ids).
Proof.
  intros Hv ids k H1 H2. apply lookup_union_r.
  destruct (v !! k) eqn:E; [|done].
  destruct (Hv k); [eauto|done..].
Qed.

Section MoreHandlerFacts.

Variable get_ports : context → port_filters → list dict.
Variable ROUTER_PORT_OWNERS : list string.
Variable bgp_as : pyval.

Local Abbreviation create_router_assoc :=
  (create_router_assoc get_ports ROUTER_PORT_OWNERS bgp_as).
Local Abbreviation delete_router_assoc :=
  (delete_router_assoc get_ports ROUTER_PORT_OWNERS).
Local Abbreviation add_router_interface := (add_router_interface bgp_as).
Local Abbreviation router_ports ctx rid :=
  (get_ports ctx (router_port_filters ROUTER_PORT_OWNERS rid)).
Local Abbreviation evpn_ids bgpvpn := (evpn_external_ids bgp_as bgpvpn).

Lemma evpn_external_ids_keys bgpvpn k :
  is_Some (evpn_ids bgpvpn !! k) →
  k = OVN_EVPN_VNI_EXT_ID_KEY ∨ k = OVN_EVPN_AS_EXT_ID_KEY.
Proof.
  unfold evpn_external_ids. intros [v Hv].
  apply lookup_insert_Some in Hv as [[<- _]|[_ Hv]]; [by right|].
  apply lookup_insert_Some in Hv as [[<- _]|[_ Hv]]; [by left|].
  by rewrite lookup_empty in Hv.
Qed.

Lemma own_keys_only_evpn bgpvpn : own_keys_only (λ ids, evpn_ids bgpvpn ∪ ids).
Proof. apply own_keys_only_union, evpn_external_ids_keys. Qed.

Lemma delete_router_assoc_inv info r db db' :
  delete_router_assoc info db = (r, db') →
  (∃ e, r = Raise e ∧ db' = db) ∨
  (∃ ctx ra rid,
      info_context info = Some ctx ∧
      info_router_association info = Some ra ∧
      ra !! "router_id" = Some rid ∧
      all_resolve db (router_ports ctx rid) = true).
Proof.
  destruct (info_context info) as [ctx|] eqn:Hc;
  [destruct (info_router_association info) as [ra|] eqn:Hra;
   [destruct (ra !! "router_id") as [rid|] eqn:Hrid;
    [destruct (all_resolve db (router_ports ctx rid)) eqn:Hall|]|]|].
  1: { intros _. right. by exists ctx, ra, rid. }
  all: unfold helper.delete_router_assoc; rewrite ?Hc, ?Hra;
    rewrite ?bind_item_some, ?bind_item_none, ?bind_dict_item, ?Hrid.
  2-4: intros [= <- <-]; left; eauto.
  rewrite bind_run.
  destruct (mapM_unresolved _ _ Hall) as [e ->].
  intros [= <- <-]; left; eauto.
Qed.

Lemma add_router_interface_inv info r db db' :
  add_router_interface info db = (r, db') →
  (∃ e, r = Raise e ∧ db' = db) ∨
  (∃ port bgpvpn row,
      info_port_id info = Some port ∧
      info_bgpvpn info = Some bgpvpn ∧
      resolve_name db port = Some row).
Proof.
  destruct (info_port_id info) as [port|] eqn:Hp;
  [destruct (info_bgpvpn info) as [bgpvpn|] eqn:Hb;
   [destruct (resolve_name db port) as [row|] eqn:Hr|]|].
  1: { intros _. right. by exists port, bgpvpn, row. }
  all: unfold helper.add_router_interface; rewrite ?Hp, ?Hb;
    rewrite ?bind_item_some, ?bind_item_none.
  2-3: intros [= <- <-]; left; eauto.
  rewrite bind_run. destruct (lsp_get_unnamed _ _ Hr) as [e ->].
  intros [= <- <-]; left; eauto.
Qed.

Lemma remove_router_interface_ok info port row db :
  info_port_id info = Some port →
  resolve_name db port = Some row →
  remove_router_interface info db
  = (Ok (), update_row (lsp_uuid row) (delete OVN_EVPN_VNI_EXT_ID_KEY) db).
Proof.
  intros Hp Hr. unfold remove_router_interface.
  rewrite Hp, !bind_item_some, bind_run, (lsp_get_named _ _ _ Hr).
  unfold execute, transaction, run_commands.
  by rewrite run_db_remove by by eapply resolve_name_has_row.
Qed.

Lemma remove_router_interface_inv info r db db' :
  remove_router_interface info db = (r, db') →
  (∃ e, r = Raise e ∧ db' = db) ∨
  (∃ port row,
      info_port_id info = Some port ∧ resolve_name db port = Some row).
Proof.
  destruct (info_port_id info) as [port|] eqn:Hp;
  [destruct (resolve_name db port) as [row|] eqn:Hr|].
  1: { intros _. right. by exists port, row. }
  all: unfold remove_router_interface; rewrite ?Hp;
    rewrite ?bind_item_some, ?bind_item_none.
  2: intros [= <- <-]; left; eauto.
  rewrite bind_run. destruct (lsp_get_unnamed _ _ Hr) as [e ->].
  intros [= <- <-]; left; eauto.
Qed.

Lemma set_ids_compose f g r : set_ids g (set_ids f r) = set_ids (g ∘ f) r.
Proof. reflexivity. Qed.

Lemma update_rows_compose us f g db :
  update_rows us g (update_rows us f db) = update_rows us (g ∘ f) db.
Proof.
  unfold update_rows. rewrite map_map. apply map_ext. intros r.
  destruct (existsb (N.eqb (lsp_uuid r)) us) eqn:E; simpl; by rewrite E.
Qed.

Lemma set_ids_id f r :
  f (lsp_external_ids r) = lsp_external_ids r → set_ids f r = r.
Proof. destruct r as [u n ids]. unfold set_ids. simpl. by intros ->. Qed.

Lemma mapM_first_unresolved ps1 p ps2 db e :
  all_resolve db ps1 = true →
  lsp_uuid_of p db = (Raise e, db) →
  mapM lsp_uuid_of (ps1 ++ p :: ps2) db = (Raise e, db).
Proof.
  intros Hall Hp. induction ps1 as [|q ps1 IH]; simpl.
  - by rewrite bind_run, Hp.
  - simpl in Hall. apply andb_true_iff in Hall as [Hq Hall].
    apply bool_decide_eq_true in Hq as [r Hr].
    rewrite bind_run, (lsp_get_resolve _ _ _ Hr), bind_run.
    by rewrite (IH Hall).
Qed.

Lemma lsp_uuid_of_no_row p n db :
  p !! "id" = Some (PStr n) →
  resolve_name db (PStr n) = None →
  lsp_uuid_of p db = (Raise (RowNotFound "Logical_Switch_Port" n), db).
Proof.
  intros Hid Hn. unfold lsp_uuid_of. rewrite bind_dict_item, Hid, bind_run.
  unfold lsp_get. simpl in Hn. by rewrite Hn.
Qed.

Lemma create_router_assoc_cases info db :
  (∃ e, create_router_assoc info db = (Raise e, db)) ∨
  (∃ us bgpvpn,
      create_router_assoc info db
      = (Ok (), update_rows us (λ ids, evpn_ids bgpvpn ∪ ids) db)).
Proof.
  destruct (create_router_assoc info db) as [r db'] eqn:E.
  destruct (create_router_assoc_inv _ _ _ _ _ _ _ E)
    as [(e & -> & ->)|(ctx & ra & bgpvpn & rid & Hc & Hra & Hb & Hrid & Hall)];
    [left; eauto|].
  rewrite (create_router_assoc_ok _ _ _ _ _ _ _ _ _ Hc Hra Hb Hrid Hall) in E.
  injection E as <- <-. right. eauto.
Qed.

Lemma delete_router_assoc_cases info db :
  (∃ e, delete_router_assoc info db = (Raise e, db)) ∨
  (∃ us,
      delete_router_assoc info db
      = (Ok (), update_rows us (delete OVN_EVPN_VNI_EXT_ID_KEY) db)).
Proof.
  destruct (delete_router_assoc info db) as [r db'] eqn:E.
  destruct (delete_router_assoc_inv _ _ _ _ E)
    as [(e & -> & ->)|(ctx & ra & rid & Hc & Hra & Hrid & Hall)];
    [left; eauto|].
  rewrite (delete_router_assoc_ok _ _ _ _ _ _ _ Hc Hra Hrid Hall) in E.
  injection E as <- <-. right. eauto.
Qed.

Lemma add_router_interface_cases info db :
  (∃ e, add_router_interface info db = (Raise e, db)) ∨
  (∃ u bgpvpn,
      add_router_interface info db
      = (Ok (), update_row u (λ ids, evpn_ids bgpvpn ∪ ids) db)).
Proof.
  destruct (add_router_interface info db) as [r db'] eqn:E.
  destruct (add_router_interface_inv _ _ _ _ E)
    as [(e & -> & ->)|(port & bgpvpn & row & Hp & Hb & Hr)];
    [left; eauto|].
  rewrite (add_router_interface_ok _ _ _ _ _ _ Hp Hb Hr) in E.
  injection E as <- <-. right. eauto.
Qed.

Lemma remove_router_interface_cases info db :
  (∃ e, remove_router_interface info db = (Raise e, db)) ∨
  (∃ u,
      remove_router_interface info db
      = (Ok (), update_row u (delete OVN_EVPN_VNI_EXT_ID_KEY) db)).
Proof.
  destruct (remove_router_interface info db) as [r db'] eqn:E.
  destruct (remove_router_interface_inv _ _ _ _ E)
    as [(e & -> & ->)|(port & row & Hp & Hr)];
    [left; eauto|].
  rewrite (remove_router_interface_ok _ _ _ _ Hp Hr) in E.
  injection E as <- <-. right. eauto.
Qed.

(** *** Properties of the four handlers *)

(** X1. Whatever the request and whatever the result, none of the four
    handlers adds, drops, reorders or renames a row, and none changes a key
    of [external_ids] other than ['neutron_bgpvpn:vni'] and
    ['neutron_bgpvpn:as']. *)
Theorem handlers_keep_ports info db :
  keeps_ports db (create_router_assoc info db).2 ∧
  keeps_ports db (delete_router_assoc info db).2 ∧
  keeps_ports db (add_router_interface info db).2 ∧
  keeps_ports db (remove_router_interface info db).2.
Proof.
  repeat split.
  - destruct (create_router_assoc_cases info db) as [[e ->]|(us & b & ->)];
      [apply keeps_ports_refl|].
    apply keeps_ports_update_rows, own_keys_only_evpn.
  - destruct (delete_router_assoc_cases info db) as [[e ->]|(us & ->)];
      [apply keeps_ports_refl|].
    apply keeps_ports_update_rows, own_keys_only_delete.
  - destruct (add_router_interface_cases info db) as [[e ->]|(u & b & ->)];
      [apply keeps_ports_refl|].
    apply keeps_ports_update_row, own_keys_only_evpn.
  - destruct (remove_router_interface_cases info db) as [[e ->]|(u & ->)];
      [apply keeps_ports_refl|].
    apply keeps_ports_update_row, own_keys_only_delete.
Qed.

(** X2. A handler that raises has written nothing: the store is the one
    it was called on.  All lookups come before the one transaction, and a
    rejected transaction is void. *)
Theorem failed_handler_leaves_store info db e db' :
  create_router_assoc info db = (Raise e, db') ∨
  delete_router_assoc info db = (Raise e, db') ∨
  add_router_interface info db = (Raise e, db') ∨
  remove_router_interface info db = (Raise e, db') →
  db' = db.
Proof.
  intros [E|[E|[E|E]]].
  - destruct (create_router_assoc_cases info db) as [[? E']|(? & ? & E')];
      rewrite E' in E; congruence.
  - destruct (delete_router_assoc_cases info db) as [[? E']|(? & E')];
      rewrite E' in E; congruence.
  - destruct (add_router_interface_cases info db) as [[? E']|(? & ? & E')];
      rewrite E' in E; congruence.
  - destruct (remove_router_interface_cases info db) as [[? E']|(? & E')];
      rewrite E' in E; congruence.
Qed.

(** X3. For a router without ports the directory returns the empty list:
    both router handlers then commit an empty transaction, return, and
    leave the store as it was. *)
Theorem router_without_ports_is_a_no_op info ctx ra bgpvpn rid db :
  info_context info = Some ctx →
  info_router_association info = Some ra →
  info_bgpvpn info = Some bgpvpn →
  ra !! "router_id" = Some rid →
  router_ports ctx rid = [] →
  create_router_assoc info db = (Ok (), db) ∧
  delete_router_assoc info db = (Ok (), db).
Proof.
  intros Hc Hra Hb Hrid Hnil. split.
  - rewrite (create_router_assoc_ok _ _ _ _ _ _ _ _ _ Hc Hra Hb Hrid);
      rewrite Hnil; [|done].
    by rewrite update_rows_nil.
  - rewrite (delete_router_assoc_ok _ _ _ _ _ _ _ Hc Hra Hrid);
      rewrite Hnil; [|done].
    by rewrite update_rows_nil.
Qed.

(** X4. When the ports of the router are resolved in the order of the
    directory and one of them has no row in the store, both router handlers
    raise the lookup error of the first such port and write nothing, also
    to the rows of the ports resolved before it. *)
Theorem first_port_without_row_fails_the_handler
    info ctx ra bgpvpn rid ps1 p n ps2 db :
  info_context info = Some ctx →
  info_router_association info = Some ra →
  info_bgpvpn info = Some bgpvpn →
  ra !! "router_id" = Some rid →
  router_ports ctx rid = ps1 ++ p :: ps2 →
  all_resolve db ps1 = true →
  p !! "id" = Some (PStr n) →
  resolve_name db (PStr n) = None →
  create_router_assoc info db
  = (Raise (RowNotFound "Logical_Switch_Port" n), db) ∧
  delete_router_assoc info db
  = (Raise (RowNotFound "Logical_Switch_Port" n), db).
Proof.
  intros Hc Hra Hb Hrid Hports Hall Hid Hn.
  pose proof (mapM_first_unresolved ps1 p ps2 db _ Hall
                (lsp_uuid_of_no_row _ _ _ Hid Hn)) as HM.
  split.
  - unfold helper.create_router_assoc.
    rewrite Hc, Hra, Hb, !bind_item_some, bind_dict_item, Hrid.
    by rewrite bind_run, Hports, HM.
  - unfold helper.delete_router_assoc.
    rewrite Hc, Hra, !bind_item_some, bind_dict_item, Hrid.
    by rewrite bind_run, Hports, HM.
Qed.

(** X5. [delete_router_assoc] is idempotent: run again on the store the
    first run left, it returns the same result and leaves the same store. *)
Theorem delete_router_assoc_idempotent info db :
  delete_router_assoc info (delete_router_assoc info db).2
  = delete_router_assoc info db.
Proof.
  destruct (delete_router_assoc info db) as [r db1] eqn:E. simpl.
  destruct (delete_router_assoc_inv _ _ _ _ E)
    as [(e & -> & ->)|(ctx & ra & rid & Hc & Hra & Hrid & Hall)]; [done|].
  rewrite (delete_router_assoc_ok _ _ _ _ _ _ _ Hc Hra Hrid Hall) in E.
  injection E as <- <-.
  rewrite (delete_router_assoc_ok _ _ _ _ _ _ _ Hc Hra Hrid).
  - rewrite resolved_uuids_update_rows, update_rows_idemp; [done|].
    intros ids. apply delete_twice.
  - by rewrite all_resolve_update_rows.
Qed.

(** X6. On a store in which no row has the key ['neutron_bgpvpn:vni'],
    [delete_router_assoc] succeeds and changes nothing: removing a key that
    is not there is no error. *)
Theorem delete_router_assoc_without_annotation info ctx ra rid db :
  info_context info = Some ctx →
  info_router_association info = Some ra →
  ra !! "router_id" = Some rid →
  all_resolve db (router_ports ctx rid) = true →
  forallb (λ r, bool_decide
                  (lsp_external_ids r !! OVN_EVPN_VNI_EXT_ID_KEY = None)) db
  = true →
  delete_router_assoc info db = (Ok (), db).
Proof.
  intros Hc Hra Hrid Hall Hno.
  rewrite (delete_router_assoc_ok _ _ _ _ _ _ _ Hc Hra Hrid Hall).
  f_equal. unfold update_rows.
  rewrite <- (map_id db) at 2. apply map_ext_in.
  intros r Hr. rewrite forallb_forall in Hno.
  apply Hno, bool_decide_eq_true in Hr.
  destruct (existsb _ _); [|done].
  apply set_ids_id. by apply delete_id.
Qed.

(** X7. [create_router_assoc] followed by [delete_router_assoc] for the same
    association does not give the store back: in the row of each port the
    key ['neutron_bgpvpn:vni'] is gone, the key ['neutron_bgpvpn:as'] stays
    with [str] of the configured [bgp_as], and the other keys are as they
    were before the two. *)
Theorem create_then_delete_router_assoc info ctx ra bgpvpn rid db :
  info_context info = Some ctx →
  info_router_association info = Some ra →
  info_bgpvpn info = Some bgpvpn →
  ra !! "router_id" = Some rid →
  all_resolve db (router_ports ctx rid) = true →
  ∃ db2,
    delete_router_assoc info (create_router_assoc info db).2 = (Ok (), db2) ∧
    ∀ iface row, iface ∈ router_ports ctx rid → resolve db iface = Some row →
      ∃ row2,
        resolve db2 iface = Some row2 ∧
        lsp_external_ids row2 !! OVN_EVPN_VNI_EXT_ID_KEY = None ∧
        lsp_external_ids row2 !! OVN_EVPN_AS_EXT_ID_KEY
        = Some (py_str bgp_as) ∧
        ∀ k, k ≠ OVN_EVPN_VNI_EXT_ID_KEY → k ≠ OVN_EVPN_AS_EXT_ID_KEY →
             lsp_external_ids row2 !! k = lsp_external_ids row !! k.
Proof.
  intros Hc Hra Hb Hrid Hall.
  rewrite (create_router_assoc_ok _ _ _ _ _ _ _ _ _ Hc Hra Hb Hrid Hall). simpl.
  rewrite (delete_router_assoc_ok _ _ _ _ _ _ _ Hc Hra Hrid)
    by by rewrite all_resolve_update_rows.
  rewrite resolved_uuids_update_rows, update_rows_compose.
  eexists. split; [done|].
  intros iface row Hin Hr.
  eexists. split; [by apply resolve_after_update|]. simpl.
  split; [apply lookup_delete_eq|].
  split.
  - rewrite lookup_delete_ne by done.
    apply lookup_union_Some_l, evpn_external_ids_as.
  - intros k H1 H2. rewrite lookup_delete_ne by done.
    by apply own_keys_only_evpn.
Qed.

(** X8. [add_router_interface] on a port that has a row writes the two keys
    to that row, keeps the row's other keys, and leaves every row with
    another uuid as it was. *)
Theorem add_router_interface_annotates_port info port bgpvpn row db :
  info_port_id info = Some port →
  info_bgpvpn info = Some bgpvpn →
  resolve_name db port = Some row →
  ∃ db' row',
    add_router_interface info db = (Ok (), db') ∧
    resolve_name db' port = Some row' ∧
    lsp_external_ids row' !! OVN_EVPN_VNI_EXT_ID_KEY
    = Some (py_str (dict_get bgpvpn "vni")) ∧
    lsp_external_ids row' !! OVN_EVPN_AS_EXT_ID_KEY = Some (py_str bgp_as) ∧
    (∀ k, k ≠ OVN_EVPN_VNI_EXT_ID_KEY → k ≠ OVN_EVPN_AS_EXT_ID_KEY →
          lsp_external_ids row' !! k = lsp_external_ids row !! k) ∧
    (∀ port2 row2, resolve_name db port2 = Some row2 →
                   lsp_uuid row2 ≠ lsp_uuid row →
                   resolve_name db' port2 = Some row2).
Proof.
  intros Hp Hb Hr. eexists. eexists.
  split; [by eapply add_router_interface_ok|].
  split; [by apply resolve_name_update_row|].
  rewrite N.eqb_refl. simpl.
  split; [apply lookup_union_Some_l, evpn_external_ids_vni|].
  split; [apply lookup_union_Some_l, evpn_external_ids_as|].
  split; [intros k H1 H2; by apply own_keys_only_evpn|].
  intros port2 row2 Hr2 Hne.
  rewrite (resolve_name_update_row _ _ _ _ _ Hr2).
  by apply N.eqb_neq in Hne as ->.
Qed.

(** X9. [add_router_interface] followed by [remove_router_interface] on the
    same port leaves the port's row without ['neutron_bgpvpn:vni'] but with
    ['neutron_bgpvpn:as']; the other keys are as before the two. *)
Theorem add_then_remove_router_interface info port bgpvpn row db :
  info_port_id info = Some port →
  info_bgpvpn info = Some bgpvpn →
  resolve_name db port = Some row →
  ∃ db2 row2,
    remove_router_interface info (add_router_interface info db).2
    = (Ok (), db2) ∧
    resolve_name db2 port = Some row2 ∧
    lsp_external_ids row2 !! OVN_EVPN_VNI_EXT_ID_KEY = None ∧
    lsp_external_ids row2 !! OVN_EVPN_AS_EXT_ID_KEY = Some (py_str bgp_as) ∧
    ∀ k, k ≠ OVN_EVPN_VNI_EXT_ID_KEY → k ≠ OVN_EVPN_AS_EXT_ID_KEY →
         lsp_external_ids row2 !! k = lsp_external_ids row !! k.
Proof.
  intros Hp Hb Hr.
  rewrite (add_router_interface_ok _ _ _ _ _ _ Hp Hb Hr). simpl.
  pose proof (resolve_name_update_row (lsp_uuid row)
                (λ ids, evpn_ids bgpvpn ∪ ids) _ _ _ Hr) as Hr1.
  rewrite N.eqb_refl in Hr1.
  eexists. eexists.
  split; [by apply (remove_router_interface_ok _ _ _ _ Hp Hr1)|].
  split; [by apply resolve_name_update_row|].
  simpl. rewrite N.eqb_refl. simpl.
  split; [apply lookup_delete_eq|].
  split.
  - rewrite lookup_delete_ne by done.
    apply lookup_union_Some_l, evpn_external_ids_as.
  - intros k H1 H2. rewrite lookup_delete_ne by done.
    by apply own_keys_only_evpn.
Qed.

Lemma update_row_idemp u f db :
  (∀ ids, f (f ids) = f ids) →
  update_row u f (update_row u f db) = update_row u f db.
Proof.
  intros Hf. rewrite !update_row_eq, map_map. apply map_ext. intros r.
  destruct (lsp_uuid r =? u)%N eqn:E; simpl; rewrite E; [|done].
  unfold set_ids; simpl. by rewrite Hf.
Qed.

(** X10. [add_router_interface] and [remove_router_interface] are
    idempotent: run again on the store the first run left, each returns the
    same result and leaves the same store. *)
Theorem interface_handlers_idempotent info db :
  add_router_interface info (add_router_interface info db).2
  = add_router_interface info db ∧
  remove_router_interface info (remove_router_interface info db).2
  = remove_router_interface info db.
Proof.
  split.
  - destruct (add_router_interface info db) as [r db1] eqn:E. simpl.
    destruct (add_router_interface_inv _ _ _ _ E)
      as [(e & -> & ->)|(port & bgpvpn & row & Hp & Hb & Hr)]; [done|].
    rewrite (add_router_interface_ok _ _ _ _ _ _ Hp Hb Hr) in E.
    injection E as <- <-.
    pose proof (resolve_name_update_row (lsp_uuid row)
                  (λ ids, evpn_ids bgpvpn ∪ ids) _ _ _ Hr) as Hr1.
    rewrite N.eqb_refl in Hr1.
    rewrite (add_router_interface_ok _ _ _ _ _ _ Hp Hb Hr1). simpl.
    rewrite update_row_idemp; [done|]. intros ids. apply union_twice.
  - destruct (remove_router_interface info db) as [r db1] eqn:E. simpl.
    destruct (remove_router_interface_inv _ _ _ _ E)
      as [(e & -> & ->)|(port & row & Hp & Hr)]; [done|].
    rewrite (remove_router_interface_ok _ _ _ _ Hp Hr) in E.
    injection E as <- <-.
    pose proof (resolve_name_update_row (lsp_uuid row)
                  (delete OVN_EVPN_VNI_EXT_ID_KEY) _ _ _ Hr) as Hr1.
    rewrite N.eqb_refl in Hr1.
    rewrite (remove_router_interface_ok _ _ _ _ Hp Hr1). simpl.
    rewrite update_row_idemp; [done|]. intros ids. apply delete_twice.
Qed.

End MoreHandlerFacts.

(** ** More on the worker loop *)

Section MoreWorkerFacts.

Variable get_ports : context → port_filters → list dict.
Variable ROUTER_PORT_OWNERS : list string.
Variable bgp_as : pyval.

Local Abbreviation create_router_assoc :=
  (create_router_assoc get_ports ROUTER_PORT_OWNERS bgp_as).
Local Abbreviation delete_router_assoc :=
  (delete_router_assoc get_ports ROUTER_PORT_OWNERS).
Local Abbreviation add_router_interface := (add_router_interface bgp_as).
Local Abbreviation dispatch := (dispatch get_ports ROUTER_PORT_OWNERS bgp_as).
Local Abbreviation iteration := (iteration get_ports ROUTER_PORT_OWNERS bgp_as).
Local Abbreviation run_loop := (run_loop get_ports ROUTER_PORT_OWNERS bgp_as).
Local Abbreviation _request_handler :=
  (_request_handler get_ports ROUTER_PORT_OWNERS bgp_as).
Local Abbreviation shutdown := (shutdown get_ports ROUTER_PORT_OWNERS bgp_as).
Local Abbreviation run := (run get_ports ROUTER_PORT_OWNERS bgp_as).
Local Abbreviation in_order := (in_order get_ports ROUTER_PORT_OWNERS bgp_as).
Local Abbreviation func_maps :=
  (_bgpvpn_request_func_maps get_ports ROUTER_PORT_OWNERS bgp_as).

#[local] Arguments helper.dispatch : simpl never.

(** The table of handlers has three entries and no other. *)
Lemma dispatch_table_entries t (handler : request_info → M unit) :
  func_maps !! t = Some handler →
  (t = REQ_TYPE_CREATE_ROUTER_ASSOC ∧ handler = create_router_assoc) ∨
  (t = REQ_TYPE_DELETE_ROUTER_ASSOC ∧ handler = delete_router_assoc) ∨
  (t = REQ_TYPE_ADD_ROUTER_INTERFACE ∧ handler = add_router_interface).
Proof.
  unfold _bgpvpn_request_func_maps, _init_bgpvpn_actions. intros H.
  apply lookup_insert_Some in H as [[Ht Hh]|[_ H]]; [subst; auto|].
  apply lookup_insert_Some in H as [[Ht Hh]|[_ H]]; [subst; auto|].
  apply lookup_insert_Some in H as [[Ht Hh]|[_ H]]; [subst; auto|].
  by rewrite lookup_empty in H.
Qed.

Lemma func_maps_cases t (handler : request_info → M unit) :
  func_maps !! t = Some handler →
  handler = create_router_assoc ∨ handler = delete_router_assoc ∨
  handler = add_router_interface.
Proof.
  intros H. destruct (dispatch_table_entries _ _ H)
    as [[_ ->]|[[_ ->]|[_ ->]]]; auto.
Qed.

(** What a dispatched request does to the store: nothing, or one update of
    rows on the driver's own keys; nothing when the outcome is not
    [Handled]. *)
Lemma dispatch_cases r db :
  (∃ o, o ≠ Handled ∧ dispatch r db = (o, db)) ∨
  (∃ us f, own_keys_only f ∧ dispatch r db = (Handled, update_rows us f db)) ∨
  (∃ u f, own_keys_only f ∧ dispatch r db = (Handled, update_row u f db)).
Proof.
  unfold helper.dispatch.
  destruct (func_maps !! req_type r) as [handler|] eqn:Hf;
    [|left; by exists NoHandler].
  destruct (req_info r) as [info|];
    [|left; by exists (Logged (KeyError "info"))].
  rewrite bind_item_some.
  destruct (func_maps_cases _ _ Hf) as [-> | [-> | ->]].
  - destruct (create_router_assoc_cases get_ports ROUTER_PORT_OWNERS bgp_as
                info db) as [[e ->]|(us & b & ->)].
    + left. by exists (Logged e).
    + right. left. eexists _, _. split; [|done]. apply own_keys_only_evpn.
  - destruct (delete_router_assoc_cases get_ports ROUTER_PORT_OWNERS
                info db) as [[e ->]|(us & ->)].
    + left. by exists (Logged e).
    + right. left. eexists _, _. split; [|done]. apply own_keys_only_delete.
  - destruct (add_router_interface_cases bgp_as info db)
      as [[e ->]|(u & b & ->)].
    + left. by exists (Logged e).
    + right. right. eexists _, _. split; [|done]. apply own_keys_only_evpn.
Qed.

Lemma dispatch_keeps_ports r db : keeps_ports db (dispatch r db).2.
Proof.
  destruct (dispatch_cases r db)
    as [(o & _ & ->)|[(us & f & Hf & ->)|(u & f & Hf & ->)]]; simpl.
  - apply keeps_ports_refl.
  - by apply keeps_ports_update_rows.
  - by apply keeps_ports_update_row.
Qed.

Lemma iteration_keeps_ports h :
  keeps_ports (ovn_nbdb h) (ovn_nbdb (iteration h)).
Proof.
  unfold helper.iteration.
  destruct (_helper_thread_alive h); [|apply keeps_ports_refl].
  destruct (_requests h) as [|r rest]; [apply keeps_ports_refl|].
  destruct (String.eqb _ _); [apply keeps_ports_refl|].
  pose proof (dispatch_keeps_ports r (ovn_nbdb h)) as H.
  by destruct (dispatch r (ovn_nbdb h)).
Qed.

(** X11. Whatever requests are put, of whatever type and content, and
    however the puts interleave with the worker's passes, the worker never
    adds, drops, reorders or renames a row of the store and never changes a
    key of [external_ids] other than the driver's two. *)
Theorem worker_keeps_ports schedule h :
  keeps_ports (ovn_nbdb h) (ovn_nbdb (run schedule h)).
Proof.
  revert h. induction schedule as [|a schedule IH]; intros h.
  - apply keeps_ports_refl.
  - destruct a as [req|].
    + rewrite run_put. apply (IH (add_request req h)).
    + rewrite run_work.
      eapply keeps_ports_trans; [apply iteration_keeps_ports|apply IH].
Qed.

(** X12. When the worker logs an exception for a request, or finds no
    handler for it, the store is the one it was before the request. *)
Theorem unhandled_request_leaves_store r db o db' :
  dispatch r db = (o, db') → o ≠ Handled → db' = db.
Proof.
  intros E Ho.
  destruct (dispatch_cases r db)
    as [(o' & _ & E')|[(us & f & _ & E')|(u & f & _ & E')]];
    rewrite E' in E; congruence.
Qed.

(** A request of a registered type that has no ['info'] key is logged
    as [KeyError('info')]; the handler is not called and the store is as
    before. *)
Lemma registered_request_without_info r db :
  is_Some (func_maps !! req_type r) →
  req_info r = None →
  dispatch r db = (Logged (KeyError "info"), db).
Proof.
  intros [handler Hf] Hi. unfold helper.dispatch. by rewrite Hf, Hi.
Qed.

Lemma run_snoc schedule a h : run (schedule ++ [a]) h = step get_ports
  ROUTER_PORT_OWNERS bgp_as (run schedule h) a.
Proof. unfold helper.run. by rewrite foldl_app. Qed.

Lemma puts_snoc_put schedule req : puts (schedule ++ [Put req]) = puts schedule ++ [req].
Proof. unfold puts. by rewrite omap_app. Qed.

Lemma puts_snoc_work schedule : puts (schedule ++ [Work]) = puts schedule.
Proof. unfold puts. rewrite omap_app. simpl. by rewrite app_nil_r. Qed.

Lemma in_order_snoc rs r db :
  in_order (rs ++ [r]) db
  = ((in_order rs db).1 ++ [Processed r (dispatch r (in_order rs db).2).1],
     (dispatch r (in_order rs db).2).2).
Proof. rewrite in_order_app, in_order_cons. done. Qed.

(** X13. The whole course of the worker, exit requests included: at any
    moment the requests handled are commands, they are the first ones put,
    in the order of the puts, each dispatched on the store the one before
    it left; while the thread is alive the rest of the puts is the queue;
    once it has ended, the put that follows the handled ones is an exit
    request and nothing put after it has been handled. *)
Theorem fifo_until_exit schedule db :
  ∃ handled,
    forallb is_command handled = true ∧
    ovn_nbdb (run schedule (new_helper db)) = (in_order handled db).2 ∧
    ((_helper_thread_alive (run schedule (new_helper db)) = true ∧
      puts schedule = handled ++ _requests (run schedule (new_helper db)) ∧
      history (run schedule (new_helper db)) = (in_order handled db).1)
     ∨
     (_helper_thread_alive (run schedule (new_helper db)) = false ∧
      (∃ x, is_command x = false ∧
            puts schedule
            = handled ++ x :: _requests (run schedule (new_helper db))) ∧
      history (run schedule (new_helper db))
      = (in_order handled db).1 ++ [Exited])).
Proof.
  induction schedule as [|a schedule IH] using rev_ind.
  - exists []. repeat split. left. done.
  - destruct IH as (handled & Hc & Hdb & IH). rewrite run_snoc.
    set (h := run schedule (new_helper db)) in *.
    destruct a as [req|].
    + rewrite puts_snoc_put. exists handled. simpl.
      split; [done|]. split; [done|].
      destruct IH as [(Ha & Hq & Hh)|(Ha & (x & Hx & Hq) & Hh)].
      * left. rewrite Hq, <- app_assoc. done.
      * right. split; [done|]. split; [|done]. exists x.
        split; [done|]. rewrite Hq, <- app_assoc. done.
    + rewrite puts_snoc_work. simpl.
      destruct IH as [(Ha & Hq & Hh)|(Ha & Hx & Hh)].
      * unfold helper.iteration. rewrite Ha.
        destruct (_requests h) as [|r rest] eqn:Hr.
        { exists handled. rewrite Ha, Hr. repeat split; try done. by left. }
        destruct (String.eqb (req_type r) REQ_TYPE_EXIT) eqn:Ex.
        { exists handled. simpl. repeat split; try done. right.
          split; [done|]. split; [|by rewrite Hh].
          exists r. split; [|done]. unfold is_command. by rewrite Ex. }
        exists (handled ++ [r]). rewrite in_order_snoc, <- Hdb.
        destruct (dispatch r (ovn_nbdb h)) as [o db']. simpl.
        split.
        { rewrite forallb_app, Hc. simpl. unfold is_command. by rewrite Ex. }
        split; [done|]. left.
        split; [done|]. split; [by rewrite <- app_assoc|].
        by rewrite Hh.
      * exists handled. unfold helper.iteration. rewrite Ha.
        repeat split; try done. by right.
Qed.

(** X14. Once the worker thread has ended it handles nothing more: further
    puts only lengthen the queue, and neither the store nor the record of
    what was handled changes. *)
Theorem ended_worker_handles_nothing schedule h :
  _helper_thread_alive h = false →
  run schedule h
  = {| _requests := _requests h ++ puts schedule;
       _helper_thread_alive := false;
       ovn_nbdb := ovn_nbdb h;
       ovn_nbdb_started := ovn_nbdb_started h;
       history := history h |}.
Proof.
  revert h. induction schedule as [|a schedule IH]; intros h Ha.
  - destruct h; simpl in *; subst. by rewrite app_nil_r.
  - destruct a as [req|].
    + rewrite run_put, IH by done. rewrite puts_cons_put. simpl.
      by rewrite <- app_assoc.
    + rewrite run_work. unfold helper.iteration. rewrite Ha.
      by rewrite IH.
Qed.

Lemma run_loop_ends_at_exit q db :
  (run_loop (q ++ [exit_request]) db).1.1.2 = false.
Proof.
  revert db. induction q as [|r q IH]; intros db; simpl; [done|].
  destruct (String.eqb (req_type r) REQ_TYPE_EXIT); [done|].
  destruct (dispatch r db) as [o db']. specialize (IH db').
  by destruct (run_loop (q ++ [exit_request]) db') as [[[q' a] db''] evs].
Qed.

(** X15. [shutdown] never hangs: on a helper whose connection is open,
    whatever is queued and whether or not the worker thread is still alive,
    the exit request it puts lets [join] return (the thread had ended
    already, or ends at an exit request); the thread has then ended and the
    connection is stopped, as the last thing recorded. *)
Theorem shutdown_returns h :
  ovn_nbdb_started h = true →
  ∃ h' evs,
    shutdown h = Some h' ∧
    _helper_thread_alive h' = false ∧
    ovn_nbdb_started h' = false ∧
    history h' = history h ++ evs ++ [ConnectionStopped].
Proof.
  intros _. unfold helper.shutdown, helper._request_handler. simpl.
  destruct (_helper_thread_alive h) eqn:Ha.
  - pose proof (run_loop_ends_at_exit (_requests h) (ovn_nbdb h)) as He.
    destruct (run_loop (_requests h ++ [exit_request]) (ovn_nbdb h))
      as [[[q' a] db''] evs].
    simpl in He. subst a. simpl.
    eexists _, evs. repeat split. simpl. by rewrite <- app_assoc.
  - simpl. rewrite Ha. eexists _, []. repeat split.
Qed.

End MoreWorkerFacts.

(** ** More on the driver *)

(** X16. The precommit hooks of create and of update accept a bgpvpn
    exactly when none of [route_distinguishers], [route_targets],
    [import_targets], [export_targets] and [local_pref] is true in Python's
    sense ([None], the empty list, [0], a missing key are not) and its type
    is the string ['l3']; the helper is returned as it was. *)
Theorem precommit_hooks_accept_exactly ctx old_bgpvpn bgpvpn h :
  (create_bgpvpn_precommit ctx bgpvpn h = (Ok (), h) ↔
   truthy (dict_get bgpvpn "route_distinguishers") = false ∧
   truthy (dict_get bgpvpn "route_targets") = false ∧
   truthy (dict_get bgpvpn "import_targets") = false ∧
   truthy (dict_get bgpvpn "export_targets") = false ∧
   truthy (dict_get bgpvpn "local_pref") = false ∧
   dict_get bgpvpn "type" = PStr "l3") ∧
  update_bgpvpn_precommit ctx old_bgpvpn bgpvpn h
  = create_bgpvpn_precommit ctx bgpvpn h ∧
  (create_bgpvpn_precommit ctx bgpvpn h).2 = h.
Proof.
  split; [|done].
  unfold create_bgpvpn_precommit.
  rewrite <- _common_precommit_checks_ok_iff.
  split; [by intros [= ->]|by intros ->].
Qed.

Lemma py_in_supported_false v :
  py_in v OVN_SUPPORTED_BGPVPN_TYPES = false ↔ v ≠ PStr "l3".
Proof.
  rewrite <- py_in_supported.
  destruct (py_in v OVN_SUPPORTED_BGPVPN_TYPES); split; congruence.
Qed.

(** X17. The type error comes last: the precommit checks raise
    [BGPVPNTypeNotSupported] exactly when none of the five unsupported
    attributes is true in Python's sense and the type is not ['l3']; the
    error carries the driver name and the type found, [None] when the key
    ['type'] is missing. *)
Theorem precommit_type_error bgpvpn driver type :
  _common_precommit_checks bgpvpn = Raise (BGPVPNTypeNotSupported driver type)
  ↔
  truthy (dict_get bgpvpn "route_distinguishers") = false ∧
  truthy (dict_get bgpvpn "route_targets") = false ∧
  truthy (dict_get bgpvpn "import_targets") = false ∧
  truthy (dict_get bgpvpn "export_targets") = false ∧
  truthy (dict_get bgpvpn "local_pref") = false ∧
  driver = OVN_DRIVER_NAME ∧
  type = dict_get bgpvpn "type" ∧
  type ≠ PStr "l3".
Proof.
  unfold _common_precommit_checks.
  destruct (truthy (dict_get bgpvpn "route_distinguishers"));
    [by split; [|intros (? & _)]|].
  destruct (truthy (dict_get bgpvpn "route_targets"));
    [by split; [|intros (_ & ? & _)]|].
  destruct (truthy (dict_get bgpvpn "import_targets"));
    [by split; [|intros (_ & _ & ? & _)]|].
  destruct (truthy (dict_get bgpvpn "export_targets"));
    [by split; [|intros (_ & _ & _ & ? & _)]|].
  destruct (truthy (dict_get bgpvpn "local_pref"));
    [by split; [|intros (_ & _ & _ & _ & ? & _)]|].
  destruct (py_in (dict_get bgpvpn "type") OVN_SUPPORTED_BGPVPN_TYPES) eqn:E;
    simpl.
  - apply py_in_supported in E. split; [done|].
    intros (_ & _ & _ & _ & _ & _ & -> & Hne). done.
  - apply py_in_supported_false in E. split.
    + intros [= <- <-]. done.
    + intros (_ & _ & _ & _ & _ & -> & -> & _). done.
Qed.

Section MoreDriverFacts.

Variable get_ports : context → port_filters → list dict.
Variable ROUTER_PORT_OWNERS : list string.
Variable bgp_as : pyval.
Variable get_bgpvpn : context → pyval → result dict.
Variable get_bgpvpns : context → bgpvpn_filters → result (list dict).
Variable get_router_assocs :
  context → pyval → bgpvpn_filters → result (list dict).

Local Abbreviation create_router_assoc :=
  (create_router_assoc get_ports ROUTER_PORT_OWNERS bgp_as).
Local Abbreviation delete_router_assoc :=
  (delete_router_assoc get_ports ROUTER_PORT_OWNERS).
Local Abbreviation add_router_interface := (add_router_interface bgp_as).
Local Abbreviation router_ports ctx rid :=
  (get_ports ctx (router_port_filters ROUTER_PORT_OWNERS rid)).
Local Abbreviation dispatch := (dispatch get_ports ROUTER_PORT_OWNERS bgp_as).
Local Abbreviation _request_handler :=
  (_request_handler get_ports ROUTER_PORT_OWNERS bgp_as).
Local Abbreviation func_maps :=
  (_bgpvpn_request_func_maps get_ports ROUTER_PORT_OWNERS bgp_as).
Local Abbreviation create_router_assoc_precommit :=
  (create_router_assoc_precommit get_bgpvpn).
Local Abbreviation registry_router_interface_created :=
  (registry_router_interface_created get_bgpvpns).
Local Abbreviation registry_router_gateway_crated :=
  (registry_router_gateway_crated get_bgpvpns get_router_assocs).

#[local] Arguments helper.dispatch : simpl never.

Lemma func_maps_create :
  func_maps !! REQ_TYPE_CREATE_ROUTER_ASSOC = Some create_router_assoc.
Proof.
  unfold _bgpvpn_request_func_maps, _init_bgpvpn_actions.
  rewrite !lookup_insert_ne by done. apply lookup_insert_eq.
Qed.

Lemma func_maps_delete :
  func_maps !! REQ_TYPE_DELETE_ROUTER_ASSOC = Some delete_router_assoc.
Proof.
  unfold _bgpvpn_request_func_maps, _init_bgpvpn_actions.
  rewrite lookup_insert_ne by done. apply lookup_insert_eq.
Qed.

Lemma func_maps_add :
  func_maps !! REQ_TYPE_ADD_ROUTER_INTERFACE = Some add_router_interface.
Proof.
  unfold _bgpvpn_request_func_maps, _init_bgpvpn_actions.
  apply lookup_insert_eq.
Qed.

(** The loop of an idle worker on one handled command. *)
Lemma _request_handler_one h r info (handler : request_info → M unit) db' :
  _helper_thread_alive h = true →
  _requests h = [r] →
  is_command r = true →
  func_maps !! req_type r = Some handler →
  req_info r = Some info →
  handler info (ovn_nbdb h) = (Ok (), db') →
  _request_handler h
  = {| _requests := []; _helper_thread_alive := true; ovn_nbdb := db';
       ovn_nbdb_started := ovn_nbdb_started h;
       history := history h ++ [Processed r Handled] |}.
Proof.
  intros Ha Hq Hr Hf Hi Hh.
  rewrite _request_handler_commands; [|done|by rewrite Hq; simpl; rewrite Hr].
  rewrite Hq. simpl.
  assert (dispatch r (ovn_nbdb h) = (Handled, db')) as ->; [|done].
  unfold helper.dispatch. rewrite Hf, Hi, bind_item_some. by rewrite Hh.
Qed.

(** X18. A precommit hook that raises has put nothing on the queue: the
    helper is returned as it was, and the error goes to the caller.  This
    holds for the bgpvpn hooks and for [create_router_assoc_precommit],
    which raises when the association has no ['bgpvpn_id'] or when the
    lookup of the bgpvpn raises. *)
Theorem raising_precommit_enqueues_nothing
    ctx old_bgpvpn bgpvpn router_assoc h e h' :
  create_bgpvpn_precommit ctx bgpvpn h = (Raise e, h') ∨
  update_bgpvpn_precommit ctx old_bgpvpn bgpvpn h = (Raise e, h') ∨
  create_router_assoc_precommit ctx router_assoc h = (Raise e, h') →
  h' = h.
Proof.
  intros [E|[E|E]]; [by injection E..|].
  unfold ovn.create_router_assoc_precommit in E.
  destruct (dict_item router_assoc "bgpvpn_id"); [|by injection E].
  destruct (get_bgpvpn ctx a); [done|by injection E].
Qed.

(** X19. From the tenant's call to the store: on an idle helper,
    [create_router_assoc_precommit] followed by the worker's loop leaves
    every port of the router with the two keys, with [str] of the vni of
    the bgpvpn the lookup returned and [str] of [bgp_as]; the request is
    recorded as handled and the queue is empty again. *)
Theorem create_router_assoc_precommit_then_worker
    ctx router_assoc bgpvpn_id bgpvpn rid h :
  _helper_thread_alive h = true →
  _requests h = [] →
  router_assoc !! "bgpvpn_id" = Some bgpvpn_id →
  get_bgpvpn ctx bgpvpn_id = Ok bgpvpn →
  router_assoc !! "router_id" = Some rid →
  all_resolve (ovn_nbdb h) (router_ports ctx rid) = true →
  ∃ req h1 h2,
    create_router_assoc_precommit ctx router_assoc h = (Ok (), h1) ∧
    _requests h1 = [req] ∧
    _request_handler h1 = h2 ∧
    _requests h2 = [] ∧
    history h2 = history h ++ [Processed req Handled] ∧
    ∀ iface, iface ∈ router_ports ctx rid →
      carries (ovn_nbdb h2) iface OVN_EVPN_VNI_EXT_ID_KEY
        (py_str (dict_get bgpvpn "vni")) ∧
      carries (ovn_nbdb h2) iface OVN_EVPN_AS_EXT_ID_KEY (py_str bgp_as).
Proof.
  intros Ha Hq Hid Hb Hrid Hall.
  unfold ovn.create_router_assoc_precommit, dict_item. rewrite Hid, Hb.
  eexists _, _, _. split; [done|]. simpl. rewrite Hq. simpl.
  split; [done|].
  erewrite _request_handler_one; [|done|by simpl; rewrite Hq|done
    |apply func_maps_create|done
    |by eapply (create_router_assoc_ok get_ports ROUTER_PORT_OWNERS bgp_as)].
  split; [done|]. simpl. split; [done|]. split; [done|].
  intros iface Hin.
  destruct (all_resolve_elem _ _ _ Hall Hin) as [r Hr].
  split; eexists; (split; [by apply resolve_after_update|]); simpl;
    apply lookup_union_Some_l.
  - apply evpn_external_ids_vni.
  - apply evpn_external_ids_as.
Qed.

(** X20. On an idle helper, [delete_router_assoc_precommit] followed by the
    worker's loop removes ['neutron_bgpvpn:vni'] from the row of every port
    of the router.  The request it builds has no ['bgpvpn'] key, and the
    handler does not read one. *)
Theorem delete_router_assoc_precommit_then_worker ctx router_assoc rid h :
  _helper_thread_alive h = true →
  _requests h = [] →
  router_assoc !! "router_id" = Some rid →
  all_resolve (ovn_nbdb h) (router_ports ctx rid) = true →
  ∃ req h1 h2,
    delete_router_assoc_precommit ctx router_assoc h = (Ok (), h1) ∧
    _requests h1 = [req] ∧
    (∃ info, req_info req = Some info ∧ info_bgpvpn info = None) ∧
    _request_handler h1 = h2 ∧
    _requests h2 = [] ∧
    history h2 = history h ++ [Processed req Handled] ∧
    ∀ iface row, iface ∈ router_ports ctx rid →
      resolve (ovn_nbdb h) iface = Some row →
      ∃ row',
        resolve (ovn_nbdb h2) iface = Some row' ∧
        lsp_external_ids row'
        = delete OVN_EVPN_VNI_EXT_ID_KEY (lsp_external_ids row).
Proof.
  intros Ha Hq Hrid Hall.
  unfold delete_router_assoc_precommit.
  eexists _, _, _. split; [done|]. simpl. rewrite Hq. simpl.
  split; [done|]. split; [eauto|].
  erewrite _request_handler_one; [|done|by simpl; rewrite Hq|done
    |apply func_maps_delete|done
    |by eapply (delete_router_assoc_ok get_ports ROUTER_PORT_OWNERS)].
  split; [done|]. simpl. split; [done|]. split; [done|].
  intros iface row Hin Hr.
  eexists. split; [by apply resolve_after_update|]. done.
Qed.

(** X21. [registry_router_gateway_crated]: when the lookup of the router's
    BGPVPNs returns the empty list the helper is returned as it was; when it
    returns at least one, the router associations of the first one are
    looked up and one [create_router_assoc] request is put, with the first
    association and the first BGPVPN; an empty list of associations is
    logged as [IndexError], a first BGPVPN without ['id'] as [KeyError], a
    failed lookup as its error, each with nothing put. *)
Theorem router_gateway_created_enqueues payload h :
  match get_bgpvpns (payload_context payload)
          {| routers := [payload_resource_id payload] |} with
  | Raise e => registry_router_gateway_crated payload h = (Some e, h)
  | Ok [] => registry_router_gateway_crated payload h = (None, h)
  | Ok (bgpvpn0 :: _) =>
      match bgpvpn0 !! "id" with
      | None =>
          registry_router_gateway_crated payload h
          = (Some (KeyError "id"), h)
      | Some bgpvpn_id =>
          match get_router_assocs (payload_context payload) bgpvpn_id
                  {| routers := [payload_resource_id payload] |} with
          | Raise e => registry_router_gateway_crated payload h = (Some e, h)
          | Ok [] =>
              registry_router_gateway_crated payload h = (Some IndexError, h)
          | Ok (router_assoc0 :: _) =>
              registry_router_gateway_crated payload h
              = (None,
                 add_request
                   {| req_type := REQ_TYPE_CREATE_ROUTER_ASSOC;
                      req_info :=
                        Some {| info_context := Some (payload_context payload);
                                info_router_association := Some router_assoc0;
                                info_bgpvpn := Some bgpvpn0;
                                info_port_id := None |} |}
                   h)
          end
      end
  end.
Proof.
  unfold ovn.registry_router_gateway_crated, router_gateway_created_body.
  destruct (get_bgpvpns _ _) as [[|bgpvpn0 bgpvpns]|e]; [done| |done].
  unfold dict_item. destruct (bgpvpn0 !! "id") as [bgpvpn_id|]; [|done].
  by destruct (get_router_assocs _ _ _) as [[|ra ras]|e].
Qed.

Lemma puts_at_most_one_refl h : puts_at_most_one h h.
Proof. unfold puts_at_most_one. auto 10. Qed.

Lemma puts_at_most_one_add_request req h :
  puts_at_most_one h (add_request req h).
Proof. unfold puts_at_most_one. simpl. repeat split. right. by exists req. Qed.

(** X22. Neither registry callback touches the store, the worker thread or
    the record of handled requests, whatever the payload and whatever the
    lookups return or raise; each leaves the queue as it was or longer by
    one request at its tail. *)
Theorem registry_callbacks_put_at_most_one payload h :
  puts_at_most_one h (registry_router_interface_created payload h).2 ∧
  puts_at_most_one h (registry_router_gateway_crated payload h).2.
Proof.
  split.
  - unfold ovn.registry_router_interface_created,
      router_interface_created_body.
    destruct (payload_metadata payload !! "port");
      [|apply puts_at_most_one_refl].
    destruct (get_bgpvpns _ _) as [[|b bs]|e]; simpl;
      auto using puts_at_most_one_refl, puts_at_most_one_add_request.
  - unfold ovn.registry_router_gateway_crated, router_gateway_created_body.
    destruct (get_bgpvpns _ _) as [[|b bs]|e]; simpl;
      auto using puts_at_most_one_refl.
    destruct (dict_item b "id"); simpl; auto using puts_at_most_one_refl.
    destruct (get_router_assocs _ _ _) as [[|ra ras]|e]; simpl;
      auto using puts_at_most_one_refl, puts_at_most_one_add_request.
Qed.

(** X23. From the notification to the store: on an idle helper, a
    router-interface notification for a router with a BGPVPN, followed by
    the worker's loop, leaves the row of the new port with the two keys,
    the vni being that of the first BGPVPN of the lookup. *)
Theorem router_interface_created_then_worker
    payload port port_id row bgpvpn0 bgpvpns h :
  _helper_thread_alive h = true →
  _requests h = [] →
  payload_metadata payload !! "port" = Some port →
  port !! "id" = Some port_id →
  get_bgpvpns (payload_context payload)
    {| routers := [payload_resource_id payload] |} = Ok (bgpvpn0 :: bgpvpns) →
  resolve_name (ovn_nbdb h) port_id = Some row →
  ∃ req h1 h2 row',
    registry_router_interface_created payload h = (None, h1) ∧
    _requests h1 = [req] ∧
    _request_handler h1 = h2 ∧
    _requests h2 = [] ∧
    history h2 = history h ++ [Processed req Handled] ∧
    resolve_name (ovn_nbdb h2) port_id = Some row' ∧
    lsp_external_ids row' !! OVN_EVPN_VNI_EXT_ID_KEY
    = Some (py_str (dict_get bgpvpn0 "vni")) ∧
    lsp_external_ids row' !! OVN_EVPN_AS_EXT_ID_KEY = Some (py_str bgp_as).
Proof.
  intros Ha Hq Hport Hid Hb Hrow.
  unfold ovn.registry_router_interface_created, router_interface_created_body.
  rewrite Hport, Hb. unfold dict_get. rewrite Hid. simpl.
  eexists _, _, _, _. split; [done|]. simpl. rewrite Hq. simpl.
  split; [done|].
  erewrite _request_handler_one; [|done|by simpl; rewrite Hq|done
    |apply func_maps_add|done
    |by eapply (add_router_interface_ok bgp_as)].
  split; [done|]. simpl. split; [done|]. split; [done|].
  split; [by apply resolve_name_update_row|].
  rewrite N.eqb_refl. simpl.
  split; apply lookup_union_Some_l.
  - apply evpn_external_ids_vni.
  - apply evpn_external_ids_as.
Qed.

(** X24. A router-gateway notification re-applies the association to the
    whole router: on an idle helper, when the router has a BGPVPN and that
    BGPVPN a router association, the callback followed by the worker's loop
    leaves every port of the router named by the first association with the
    two keys. *)
Theorem router_gateway_created_then_worker
    payload bgpvpn0 bgpvpns bgpvpn_id router_assoc0 router_assocs rid h :
  _helper_thread_alive h = true →
  _requests h = [] →
  get_bgpvpns (payload_context payload)
    {| routers := [payload_resource_id payload] |} = Ok (bgpvpn0 :: bgpvpns) →
  bgpvpn0 !! "id" = Some bgpvpn_id →
  get_router_assocs (payload_context payload) bgpvpn_id
    {| routers := [payload_resource_id payload] |}
  = Ok (router_assoc0 :: router_assocs) →
  router_assoc0 !! "router_id" = Some rid →
  all_resolve (ovn_nbdb h) (router_ports (payload_context payload) rid)
  = true →
  ∃ req h1 h2,
    registry_router_gateway_crated payload h = (None, h1) ∧
    _requests h1 = [req] ∧
    _request_handler h1 = h2 ∧
    _requests h2 = [] ∧
    history h2 = history h ++ [Processed req Handled] ∧
    ∀ iface, iface ∈ router_ports (payload_context payload) rid →
      carries (ovn_nbdb h2) iface OVN_EVPN_VNI_EXT_ID_KEY
        (py_str (dict_get bgpvpn0 "vni")) ∧
      carries (ovn_nbdb h2) iface OVN_EVPN_AS_EXT_ID_KEY (py_str bgp_as).
Proof.
  intros Ha Hq Hb Hid Hra Hrid Hall.
  unfold ovn.registry_router_gateway_crated, router_gateway_created_body.
  rewrite Hb. unfold dict_item. rewrite Hid, Hra. simpl.
  eexists _, _, _. split; [done|]. simpl. rewrite Hq. simpl.
  split; [done|].
  erewrite _request_handler_one; [|done|by simpl; rewrite Hq|done
    |apply func_maps_create|done
    |by eapply (create_router_assoc_ok get_ports ROUTER_PORT_OWNERS bgp_as)].
  split; [done|]. simpl. split; [done|]. split; [done|].
  intros iface Hin.
  destruct (all_resolve_elem _ _ _ Hall Hin) as [r Hr].
  split; eexists; (split; [by apply resolve_after_update|]); simpl;
    apply lookup_union_Some_l.
  - apply evpn_external_ids_vni.
  - apply evpn_external_ids_as.
Qed.

End MoreDriverFacts.

(** ** The further properties at the sample data *)

Lemma failed_handler_leaves_store_witness :
  s_create_router_assoc
    (sample.info_assoc sample.router_assoc9 sample.bgpvpn1) sample.db0
  = (Raise (RowNotFound "Logical_Switch_Port" "port-9"), sample.db0) ∧
  sample.db0 = sample.db0.
Proof.
  split; [reflexivity|].
  apply (failed_handler_leaves_store
           sample.get_ports sample.ROUTER_PORT_OWNERS sample.bgp_as
           (sample.info_assoc sample.router_assoc9 sample.bgpvpn1)
           sample.db0 (RowNotFound "Logical_Switch_Port" "port-9") sample.db0).
  left. reflexivity.
Defined.

Lemma router_without_ports_is_a_no_op_witness :
  s_create_router_assoc
    (sample.info_assoc sample2.router_assoc0 sample.bgpvpn1) sample.db0
  = (Ok (), sample.db0) ∧
  s_delete_router_assoc
    (sample.info_assoc sample2.router_assoc0 sample.bgpvpn1) sample.db0
  = (Ok (), sample.db0).
Proof.
  apply (router_without_ports_is_a_no_op
           sample.get_ports sample.ROUTER_PORT_OWNERS sample.bgp_as
           (sample.info_assoc sample2.router_assoc0 sample.bgpvpn1)
           sample.ctx sample2.router_assoc0 sample.bgpvpn1 (PStr "router-0")
           sample.db0); reflexivity.
Defined.

Lemma first_port_without_row_fails_the_handler_witness :
  create_router_assoc sample2.get_ports_mixed sample.ROUTER_PORT_OWNERS
    sample.bgp_as
    (sample.info_assoc sample.router_assoc1 sample.bgpvpn1) sample.db0
  = (Raise (RowNotFound "Logical_Switch_Port" "port-9"), sample.db0) ∧
  delete_router_assoc sample2.get_ports_mixed sample.ROUTER_PORT_OWNERS
    (sample.info_assoc sample.router_assoc1 sample.bgpvpn1) sample.db0
  = (Raise (RowNotFound "Logical_Switch_Port" "port-9"), sample.db0).
Proof.
  apply (first_port_without_row_fails_the_handler
           sample2.get_ports_mixed sample.ROUTER_PORT_OWNERS sample.bgp_as
           (sample.info_assoc sample.router_assoc1 sample.bgpvpn1)
           sample.ctx sample.router_assoc1 sample.bgpvpn1 (PStr "router-1")
           [sample.port1] sample.port9 "port-9" [sample.port2] sample.db0);
    reflexivity.
Defined.

Lemma delete_router_assoc_without_annotation_witness :
  s_delete_router_assoc
    (sample.info_assoc sample.router_assoc1 sample.bgpvpn1) sample2.db_plain
  = (Ok (), sample2.db_plain).
Proof.
  apply (delete_router_assoc_without_annotation
           sample.get_ports sample.ROUTER_PORT_OWNERS
           (sample.info_assoc sample.router_assoc1 sample.bgpvpn1)
           sample.ctx sample.router_assoc1 (PStr "router-1") sample2.db_plain);
    reflexivity.
Defined.

Lemma create_then_delete_router_assoc_witness :
  ∃ db2,
    s_delete_router_assoc
      (sample.info_assoc sample.router_assoc1 sample.bgpvpn1)
      (s_create_router_assoc
         (sample.info_assoc sample.router_assoc1 sample.bgpvpn1)
         sample.db0).2
    = (Ok (), db2) ∧
    ∀ iface row, iface ∈ s_router_ports → resolve sample.db0 iface = Some row →
      ∃ row2,
        resolve db2 iface = Some row2 ∧
        lsp_external_ids row2 !! OVN_EVPN_VNI_EXT_ID_KEY = None ∧
        lsp_external_ids row2 !! OVN_EVPN_AS_EXT_ID_KEY
        = Some (py_str sample.bgp_as) ∧
        ∀ k, k ≠ OVN_EVPN_VNI_EXT_ID_KEY → k ≠ OVN_EVPN_AS_EXT_ID_KEY →
             lsp_external_ids row2 !! k = lsp_external_ids row !! k.
Proof.
  apply (create_then_delete_router_assoc
           sample.get_ports sample.ROUTER_PORT_OWNERS sample.bgp_as
           (sample.info_assoc sample.router_assoc1 sample.bgpvpn1)
           sample.ctx sample.router_assoc1 sample.bgpvpn1 (PStr "router-1")
           sample.db0); reflexivity.
Defined.

Lemma add_router_interface_annotates_port_witness :
  ∃ db' row',
    s_add_router_interface
      (sample.info_interface (PStr "port-3") sample.bgpvpn1) sample.db0
    = (Ok (), db') ∧
    resolve_name db' (PStr "port-3") = Some row' ∧
    lsp_external_ids row' !! OVN_EVPN_VNI_EXT_ID_KEY
    = Some (py_str (dict_get sample.bgpvpn1 "vni")) ∧
    lsp_external_ids row' !! OVN_EVPN_AS_EXT_ID_KEY
    = Some (py_str sample.bgp_as) ∧
    (∀ k, k ≠ OVN_EVPN_VNI_EXT_ID_KEY → k ≠ OVN_EVPN_AS_EXT_ID_KEY →
          lsp_external_ids row' !! k = lsp_external_ids sample2.row3 !! k) ∧
    (∀ port2 row2, resolve_name sample.db0 port2 = Some row2 →
                   lsp_uuid row2 ≠ lsp_uuid sample2.row3 →
                   resolve_name db' port2 = Some row2).
Proof.
  apply (add_router_interface_annotates_port sample.bgp_as
           (sample.info_interface (PStr "port-3") sample.bgpvpn1)
           (PStr "port-3") sample.bgpvpn1 sample2.row3 sample.db0);
    reflexivity.
Defined.

Lemma add_then_remove_router_interface_witness :
  ∃ db2 row2,
    remove_router_interface
      (sample.info_interface (PStr "port-3") sample.bgpvpn1)
      (s_add_router_interface
         (sample.info_interface (PStr "port-3") sample.bgpvpn1)
         sample.db0).2
    = (Ok (), db2) ∧
    resolve_name db2 (PStr "port-3") = Some row2 ∧
    lsp_external_ids row2 !! OVN_EVPN_VNI_EXT_ID_KEY = None ∧
    lsp_external_ids row2 !! OVN_EVPN_AS_EXT_ID_KEY
    = Some (py_str sample.bgp_as) ∧
    ∀ k, k ≠ OVN_EVPN_VNI_EXT_ID_KEY → k ≠ OVN_EVPN_AS_EXT_ID_KEY →
         lsp_external_ids row2 !! k = lsp_external_ids sample2.row3 !! k.
Proof.
  apply (add_then_remove_router_interface sample.bgp_as
           (sample.info_interface (PStr "port-3") sample.bgpvpn1)
           (PStr "port-3") sample.bgpvpn1 sample2.row3 sample.db0);
    reflexivity.
Defined.

Lemma unhandled_request_leaves_store_witness :
  s_dispatch sample.req_create9 sample.db0
  = (Logged (RowNotFound "Logical_Switch_Port" "port-9"), sample.db0) ∧
  sample.db0 = sample.db0.
Proof.
  split; [reflexivity|].
  apply (unhandled_request_leaves_store
           sample.get_ports sample.ROUTER_PORT_OWNERS sample.bgp_as
           sample.req_create9 sample.db0
           (Logged (RowNotFound "Logical_Switch_Port" "port-9")) sample.db0).
  - reflexivity.
  - discriminate.
Defined.

Lemma ended_worker_handles_nothing_witness :
  s_run sample.schedule sample2.helper_ended
  = {| _requests := _requests sample2.helper_ended ++ puts sample.schedule;
       _helper_thread_alive := false;
       ovn_nbdb := ovn_nbdb sample2.helper_ended;
       ovn_nbdb_started := ovn_nbdb_started sample2.helper_ended;
       history := history sample2.helper_ended |}.
Proof.
  apply (ended_worker_handles_nothing
           sample.get_ports sample.ROUTER_PORT_OWNERS sample.bgp_as
           sample.schedule sample2.helper_ended).
  reflexivity.
Defined.

Lemma shutdown_returns_witness :
  ∃ h' evs,
    s_shutdown sample2.helper_ended = Some h' ∧
    _helper_thread_alive h' = false ∧
    ovn_nbdb_started h' = false ∧
    history h' = history sample2.helper_ended ++ evs ++ [ConnectionStopped].
Proof.
  apply (shutdown_returns
           sample.get_ports sample.ROUTER_PORT_OWNERS sample.bgp_as
           sample2.helper_ended).
  reflexivity.
Defined.

Lemma raising_precommit_enqueues_nothing_witness :
  create_bgpvpn_precommit sample.ctx sample2.bgpvpn_with_targets
    (new_helper sample.db0)
  = (Raise (BGPVPNRTNotSupported OVN_DRIVER_NAME), new_helper sample.db0) ∧
  new_helper sample.db0 = new_helper sample.db0.
Proof.
  split; [reflexivity|].
  apply (raising_precommit_enqueues_nothing sample2.get_bgpvpn
           sample.ctx sample.bgpvpn1 sample2.bgpvpn_with_targets
           sample.router_assoc1 (new_helper sample.db0)
           (BGPVPNRTNotSupported OVN_DRIVER_NAME) (new_helper sample.db0)).
  left. reflexivity.
Defined.

Lemma create_router_assoc_precommit_then_worker_witness :
  ∃ req h1 h2,
    create_router_assoc_precommit sample2.get_bgpvpn sample.ctx
      sample.router_assoc1 (new_helper sample.db0) = (Ok (), h1) ∧
    _requests h1 = [req] ∧
    s_request_handler h1 = h2 ∧
    _requests h2 = [] ∧
    history h2 = history (new_helper sample.db0) ++ [Processed req Handled] ∧
    ∀ iface, iface ∈ s_router_ports →
      carries (ovn_nbdb h2) iface OVN_EVPN_VNI_EXT_ID_KEY
        (py_str (dict_get sample.bgpvpn1 "vni")) ∧
      carries (ovn_nbdb h2) iface OVN_EVPN_AS_EXT_ID_KEY
        (py_str sample.bgp_as).
Proof.
  apply (create_router_assoc_precommit_then_worker
           sample.get_ports sample.ROUTER_PORT_OWNERS sample.bgp_as
           sample2.get_bgpvpn sample.ctx sample.router_assoc1
           (PStr "bgpvpn-1") sample.bgpvpn1 (PStr "router-1")
           (new_helper sample.db0)); reflexivity.
Defined.

Lemma delete_router_assoc_precommit_then_worker_witness :
  ∃ req h1 h2,
    delete_router_assoc_precommit sample.ctx sample.router_assoc1
      (new_helper sample.db0) = (Ok (), h1) ∧
    _requests h1 = [req] ∧
    (∃ info, req_info req = Some info ∧ info_bgpvpn info = None) ∧
    s_request_handler h1 = h2 ∧
    _requests h2 = [] ∧
    history h2 = history (new_helper sample.db0) ++ [Processed req Handled] ∧
    ∀ iface row, iface ∈ s_router_ports →
      resolve (ovn_nbdb (new_helper sample.db0)) iface = Some row →
      ∃ row',
        resolve (ovn_nbdb h2) iface = Some row' ∧
        lsp_external_ids row'
        = delete OVN_EVPN_VNI_EXT_ID_KEY (lsp_external_ids row).
Proof.
  apply (delete_router_assoc_precommit_then_worker
           sample.get_ports sample.ROUTER_PORT_OWNERS sample.bgp_as
           sample.ctx sample.router_assoc1 (PStr "router-1")
           (new_helper sample.db0)); reflexivity.
Defined.

Lemma router_interface_created_then_worker_witness :
  ∃ req h1 h2 row',
    registry_router_interface_created sample.get_bgpvpns
      (sample.payload "router-1") (new_helper sample.db0) = (None, h1) ∧
    _requests h1 = [req] ∧
    s_request_handler h1 = h2 ∧
    _requests h2 = [] ∧
    history h2 = history (new_helper sample.db0) ++ [Processed req Handled] ∧
    resolve_name (ovn_nbdb h2) (PStr "port-1") = Some row' ∧
    lsp_external_ids row' !! OVN_EVPN_VNI_EXT_ID_KEY
    = Some (py_str (dict_get sample.bgpvpn1 "vni")) ∧
    lsp_external_ids row' !! OVN_EVPN_AS_EXT_ID_KEY
    = Some (py_str sample.bgp_as).
Proof.
  apply (router_interface_created_then_worker
           sample.get_ports sample.ROUTER_PORT_OWNERS sample.bgp_as
           sample.get_bgpvpns (sample.payload "router-1") sample.port1
           (PStr "port-1") sample2.row1 sample.bgpvpn1
           [sample.bgpvpn_no_vni] (new_helper sample.db0)); reflexivity.
Defined.

Lemma router_gateway_created_then_worker_witness :
  ∃ req h1 h2,
    registry_router_gateway_crated sample.get_bgpvpns
      sample2.get_router_assocs (sample.payload "router-1")
      (new_helper sample.db0) = (None, h1) ∧
    _requests h1 = [req] ∧
    s_request_handler h1 = h2 ∧
    _requests h2 = [] ∧
    history h2 = history (new_helper sample.db0) ++ [Processed req Handled] ∧
    ∀ iface, iface ∈ s_router_ports →
      carries (ovn_nbdb h2) iface OVN_EVPN_VNI_EXT_ID_KEY
        (py_str (dict_get sample.bgpvpn1 "vni")) ∧
      carries (ovn_nbdb h2) iface OVN_EVPN_AS_EXT_ID_KEY
        (py_str sample.bgp_as).
Proof.
  apply (router_gateway_created_then_worker
           sample.get_ports sample.ROUTER_PORT_OWNERS sample.bgp_as
           sample.get_bgpvpns sample2.get_router_assocs
           (sample.payload "router-1") sample.bgpvpn1 [sample.bgpvpn_no_vni]
           (PStr "bgpvpn-1") sample.router_assoc1 [] (PStr "router-1")
           (new_helper sample.db0)); reflexivity.
Defined.
